(** * xarrayutils.plotting: a shallow embedding and its properties

    The module [xarrayutils/plotting.py] is a thin layer of helpers over
    matplotlib and gsw.  Every helper reads a few axis limits, computes
    derived numbers and forwards them to drawing primitives of an axes
    object.  The embedding below keeps that shape:

    - Python numbers are exact rationals ([Q]); rounding of binary floating
      point is not part of the model.  The box of [box_plot] may also be an
      integer array, whose differences wrap around in its dtype.
    - matplotlib is a recording double: an axes keeps its two pairs of
      limits, and every primitive call is appended to one chronological
      [trace] of the plotting state ([world]).  Autoscaling, rendering and
      argument validation inside the library are not modelled, so a
      primitive never raises.
    - Python exceptions do not roll the state back, so a computation returns
      its outcome together with the state reached ([M]).
    - gsw and the colour matplotlib picks for a line are parameters. *)

From Stdlib Require Import ZArith QArith Qabs Qminmax Qround Lia Lqa List.
From Stdlib Require Import String Ascii DecimalString DecimalPos DecimalZ.
From stdpp Require Import base option list strings gmap.

Import ListNotations.
Local Open Scope string_scope.

(** ** Python values *)

Module Py.

(** Plain values, each with a total truth value. *)
Inductive value : Type :=
| VNone
| VBool (b : bool)
| VInt (n : Z)
| VFloat (q : Q)
| VStr (s : string)
| VTuple (l : list Q)
| VList (l : list Q).

(** Whatever a caller may hand through to the plotting library. *)
Inductive pyobj : Type :=
| Val (v : value)
| Ndarray (a : list Q)
| DataArray (a : list Q)
| Other (cls : string).

(** Exception classes; the message text is not kept. *)
Inductive exn : Type :=
| ValueError
| RuntimeError
| KeyError.

Inductive result (A : Type) : Type :=
| Ok (a : A)
| Raise (e : exn).
Arguments Ok {A} a.
Arguments Raise {A} e.

(** [x < y] on numbers. *)
Definition Qltb (x y : Q) : bool :=
  match (x ?= y)%Q with Lt => true | _ => false end.

Definition Qnonzero (q : Q) : bool := negb (Qeq_bool q 0).

(** [bool(v)]. *)
Definition truthy (v : value) : bool :=
  match v with
  | VNone => false
  | VBool b => b
  | VInt n => negb (Z.eqb n 0)
  | VFloat q => Qnonzero q
  | VStr s => negb (String.eqb s "")
  | VTuple l | VList l => match l with [] => false | _ => true end
  end.

(** [str(n)] for an int. *)
Definition str (n : Z) : string := NilZero.string_of_int (Z.to_int n).

(** [int(s)], where it parses. *)
Definition int_of_str (s : string) : option Z :=
  option_map Z.of_int (NilZero.int_of_string s).

(** Keyword arguments: [d.update(e)] is [dict_update d e]. *)
Abbreviation kwargs := (gmap string pyobj).

Definition dict_update (d e : kwargs) : kwargs := e ∪ d.

End Py.
Export Py.

(** ** The plotting state *)

Module Mpl.

Abbreviation handle := nat.

Record axes : Type := mkAxes { xlim : Q * Q; ylim : Q * Q }.

(** A new axes spans the unit square. *)
Definition new_axes : axes := mkAxes (0, 1)%Q (0, 1)%Q.

(** One entry per primitive call, tagged with the object that received it. *)
Inductive call : Type :=
| SetXlim (ax : handle) (lim : Q * Q)
| SetYlim (ax : handle) (lim : Q * Q)
| SetYscale (ax : handle) (scale : string) (linthreshy : Q)
| SetYticks (ax : handle) (ticks : list Z)
| SetYticklabels (ax : handle) (labels : list string)
| InvertYaxis (ax : handle)
| Plot (ax : handle) (xs ys : list Q) (kw : kwargs)
| FillBetween (ax : handle) (x y1 y2 : list Q) (kw : kwargs)
| FillBetweenx (ax : handle) (y x1 x2 : list Q) (kw : kwargs)
| SetXlabel (ax : handle) (label : string)
| SetYlabel (ax : handle) (label : string)
| Scatter (ax : handle) (xs ys : list Q) (kw : kwargs)
| Contour (ax : handle) (x y : list Q) (z : list (list Q)) (kw : kwargs)
| Clabel (ax : handle) (contours : nat) (kw : kwargs)
| Text (ax : handle) (x y : Q) (s : string) (transform : handle) (kw : kwargs)
| Colorbar (fig : handle) (mappable : nat) (ax : handle).

(** [gca]/[gcf] are the current axes and figure of pyplot.  An axes that
    is not in [axs] yet is a new one. *)
Record world : Type := mkWorld {
  axs : gmap handle axes;
  gca : handle;
  gcf : handle;
  trace : list call
}.

(** State and exceptions: the state survives a raise. *)
Definition M (A : Type) : Type := world -> result A * world.

Definition ret {A} (a : A) : M A := fun w => (Ok a, w).

Definition bind {A B} (m : M A) (k : A -> M B) : M B :=
  fun w => match m w with
           | (Ok a, w') => k a w'
           | (Raise e, w') => (Raise e, w')
           end.

Definition raise {A} (e : exn) : M A := fun w => (Raise e, w).

Definition lift {A} (r : result A) : M A := fun w => (r, w).

Definition get_axes (ax : handle) (w : world) : axes :=
  default new_axes (axs w !! ax).

Definition put_axes (ax : handle) (a : axes) (w : world) : world :=
  mkWorld (<[ax := a]> (axs w)) (gca w) (gcf w) (trace w).

Definition record (c : call) (w : world) : world :=
  mkWorld (axs w) (gca w) (gcf w) (trace w ++ [c]).

Definition emit (c : call) : M unit := fun w => (Ok tt, record c w).

(** A primitive that hands back an artist: the artist is named by the
    position of its call in the trace. *)
Definition emit_artist (c : call) : M nat :=
  fun w => (Ok (length (trace w)), record c w).

Definition plt_gca : M handle := fun w => (Ok (gca w), w).
Definition plt_gcf : M handle := fun w => (Ok (gcf w), w).

Definition get_xlim (ax : handle) : M (Q * Q) :=
  fun w => (Ok (xlim (get_axes ax w)), w).
Definition get_ylim (ax : handle) : M (Q * Q) :=
  fun w => (Ok (ylim (get_axes ax w)), w).

Definition set_xlim (ax : handle) (lim : Q * Q) : M unit :=
  fun w => (Ok tt, record (SetXlim ax lim)
                     (put_axes ax (mkAxes lim (ylim (get_axes ax w))) w)).
Definition set_ylim (ax : handle) (lim : Q * Q) : M unit :=
  fun w => (Ok tt, record (SetYlim ax lim)
                     (put_axes ax (mkAxes (xlim (get_axes ax w)) lim) w)).

(** [invert_yaxis] exchanges bottom and top. *)
Definition invert_yaxis (ax : handle) : M unit :=
  fun w => let a := get_axes ax w in
           (Ok tt, record (InvertYaxis ax)
                     (put_axes ax (mkAxes (xlim a) (snd (ylim a), fst (ylim a))) w)).

End Mpl.
Export Mpl.

Declare Scope py_scope.
Delimit Scope py_scope with py.
Notation "x <- m ;; k" := (bind m (fun x => k))
  (at level 100, m at next level, right associativity) : py_scope.
Notation "m ;;; k" := (bind m (fun _ => k))
  (at level 100, right associativity) : py_scope.
Local Open Scope py_scope.

(** ** center_lim *)

(** [np.array([-1, 1]) * m]. *)
Definition pm_one_times (m : Q) : Q * Q := (((-1) * m)%Q, (1 * m)%Q).

(** [abs(lim).max()]. *)
Definition abs_max (lim : Q * Q) : Q := Qmax (Qabs (fst lim)) (Qabs (snd lim)).

Definition center_lim_y (ax : handle) : M unit :=
  lim <- get_ylim ax ;;
  set_ylim ax (pm_one_times (abs_max lim)).

Definition center_lim_x (ax : handle) : M unit :=
  lim <- get_xlim ax ;;
  set_xlim ax (pm_one_times (abs_max lim)).

(** The two recursive calls of the source are calls of the ['x'] and ['y']
    branches. *)
Definition center_lim (ax : handle) (which : string) : M unit :=
  if String.eqb which "y" then center_lim_y ax
  else if String.eqb which "x" then center_lim_x ax
  else if existsb (String.eqb which) ["xy"; "yx"] then
    (center_lim_x ax ;;; center_lim_y ax)
  else raise ValueError.

(** ** depth_logscale *)

Definition depth_logscale_yscale : Q := 400.

Definition depth_logscale_ticks : list Z := [0; 100; 250; 500; 1000; 2500; 5000]%Z.

Definition depth_logscale (ax : handle) (yscale : Q) (ticks : option (list Z))
  : M unit :=
  let ticks := match ticks with
               | None => depth_logscale_ticks
               | Some t => t
               end in
  emit (SetYscale ax "symlog" yscale) ;;;
  let ticklabels := map str ticks in
  emit (SetYticks ax ticks) ;;;
  emit (SetYticklabels ax ticklabels) ;;;
  invert_yaxis ax.

(** ** numpy helpers *)

(** Elementwise arithmetic of two one-dimensional arrays: equal lengths, or
    one operand of length one stretched over the other; any other pair of
    shapes raises. *)
Definition np_binop (f : Q -> Q -> Q) (a b : list Q) : result (list Q) :=
  if (length a =? length b)%nat then Ok (zip_with f a b)
  else match a, b with
       | [u], _ => Ok (map (f u) b)
       | _, [v] => Ok (map (fun u => f u v) a)
       | _, _ => Raise ValueError
       end.

Definition np_sub : list Q -> list Q -> result (list Q) := np_binop Qminus.
Definition np_add : list Q -> list Q -> result (list Q) := np_binop Qplus.

(** [np.diff([a, b])], an array of the one element [b - a]. *)
Definition np_diff (a b : Q) : Q := (b - a)%Q.

(** [box[i]], used after the length of [box] has been checked. *)
Definition item (box : list Q) (i : nat) : Q := nth i box 0%Q.

Definition of_nat (n : nat) : Q := inject_Z (Z.of_nat n).

(** [np.linspace(start, stop, num)]: [num] samples [i * step + start], the
    last one overwritten with [stop] when there are at least two. *)
Definition linspace (start stop : Q) (num : nat) : list Q :=
  let div := (num - 1)%nat in
  let step := ((stop - start) / of_nat div)%Q in
  let y := map (fun i => (of_nat i * step + start)%Q) (seq 0 num) in
  if (1 <? num)%nat then <[div := stop]> y else y.

(** [np.meshgrid(x, y)]: [X[i][j] = x[j]] and [Y[i][j] = y[i]]. *)
Definition meshgrid (x y : list Q) : list (list Q) * list (list Q) :=
  (map (fun _ => x) y, map (fun yi => map (fun _ => yi) x) y).

(** A function of two numbers applied to two grids, entry by entry. *)
Definition on_grids (f : Q -> Q -> Q) (a b : list (list Q)) : list (list Q) :=
  zip_with (zip_with f) a b.

(** [a.min()] and [a.max()] of a grid; an empty grid raises. *)
Definition grid_reduce (f : Q -> Q -> Q) (a : list (list Q)) : result Q :=
  match concat a with
  | [] => Raise ValueError
  | q :: l => Ok (fold_left f l q)
  end.

Definition grid_min : list (list Q) -> result Q := grid_reduce Qmin.
Definition grid_max : list (list Q) -> result Q := grid_reduce Qmax.

Definition np_floor (q : Q) : Q := inject_Z (Qfloor q).
Definition np_ceil (q : Q) : Q := inject_Z (Qceiling q).

(** [np.arange(start, stop, step)]: [ceil((stop - start) / step)] values
    [start + i * step], none when that count is not positive; a zero step
    raises. *)
Definition arange (start stop step : Q) : result (list Q) :=
  if Qeq_bool step 0 then Raise ValueError
  else
    let n := Z.to_nat (Qceiling ((stop - start) / step)) in
    Ok (map (fun i => (start + of_nat i * step)%Q) (seq 0 n)).

(** ** box_plot *)

Definition box_plot_split_detection : value := VStr "True".

(** The two flags as they stand after the [if split_detection:] block. *)
Definition split_flags (split_detection : value) (box : list Q) : bool * bool :=
  let x_split := false in
  let y_split := false in
  if truthy split_detection then
    (if Qltb (np_diff (item box 0) (item box 1)) 0 then true else x_split,
     if Qltb (np_diff (item box 2) (item box 3)) 0 then true else y_split)
  else (x_split, y_split).

(** The [if]/[elif] chain on the two flags. *)
Definition box_lines (ax : handle) (xlim ylim : Q * Q) (box : list Q)
    (x_split y_split : bool) (kw : kwargs) : list call :=
  let b := item box in
  if y_split && negb x_split then
    [ Plot ax [b 0; b 0; b 1; b 1; b 0]%nat
              [snd ylim; b 2; b 2; snd ylim; snd ylim]%nat kw;
      Plot ax [b 0; b 0; b 1; b 1; b 0]%nat
              [fst ylim; b 3; b 3; fst ylim; fst ylim]%nat kw ]
  else if x_split && negb y_split then
    [ Plot ax [snd xlim; b 0; b 0; snd xlim; snd xlim]%nat
              [b 2; b 2; b 3; b 3; b 2]%nat kw;
      Plot ax [fst xlim; b 1; b 1; fst xlim; fst xlim]%nat
              [b 2; b 2; b 3; b 3; b 2]%nat kw ]
  else if x_split && y_split then
    [ Plot ax [snd xlim; b 0; b 0]%nat [b 2; b 2; snd ylim]%nat kw;
      Plot ax [fst xlim; b 1; b 1]%nat [b 2; b 2; snd ylim]%nat kw;
      Plot ax [snd xlim; b 0; b 0]%nat [b 3; b 3; fst ylim]%nat kw;
      Plot ax [fst xlim; b 1; b 1]%nat [b 3; b 3; fst ylim]%nat kw ]
  else if negb x_split && negb y_split then
    [ Plot ax [b 0; b 0; b 1; b 1; b 0]%nat
              [b 2; b 3; b 3; b 2; b 2]%nat kw ]
  else [].

Fixpoint emit_all (cs : list call) : M unit :=
  match cs with
  | [] => ret tt
  | c :: cs => emit c ;;; emit_all cs
  end.

Definition or_gca (ax : option handle) : M handle :=
  match ax with
  | None => plt_gca
  | Some a => ret a
  end.

(** The axes that [or_gca] resolves to. *)
Definition target (ax : option handle) (w : world) : handle :=
  match ax with None => gca w | Some a => a end.

Definition box_plot (box : list Q) (ax : option handle)
    (split_detection : value) (kw : kwargs) : M unit :=
  if negb (length box =? 4)%nat then raise RuntimeError
  else
    g <- plt_gca ;;
    xlim <- get_xlim g ;;
    g <- plt_gca ;;
    ylim <- get_ylim g ;;
    ax <- or_gca ax ;;
    let '(x_split, y_split) := split_flags split_detection box in
    emit_all (box_lines ax xlim ylim box x_split y_split kw).

(** ** box_plot on arrays of any numeric dtype *)

(** A box is a NumPy array, and [np.diff] subtracts in the dtype of the
    array: exactly as far as the sign goes for floats, modulo [2^bits] for
    integers.  [box_plot] above is the case of a float box. *)
Inductive int_width : Type := W8 | W16 | W32 | W64.

Definition bits (w : int_width) : Z :=
  match w with W8 => 8 | W16 => 16 | W32 => 32 | W64 => 64 end.

(** Wrap-around of an integer result in a signed or unsigned dtype. *)
Definition wrap (signed : bool) (w : int_width) (z : Z) : Z :=
  let m := (2 ^ bits w)%Z in
  if signed then ((z + m / 2) mod m - m / 2)%Z else (z mod m)%Z.

(** The integers a dtype holds. *)
Definition representable (signed : bool) (w : int_width) (z : Z) : Prop :=
  if signed then (- 2 ^ (bits w - 1) <= z < 2 ^ (bits w - 1))%Z
  else (0 <= z < 2 ^ bits w)%Z.

Inductive array : Type :=
| FloatArr (items : list Q)
| IntArr (signed : bool) (w : int_width) (items : list Z).

(** [len(a)]. *)
Definition arr_len (a : array) : nat :=
  match a with
  | FloatArr l => length l
  | IntArr _ _ l => length l
  end.

(** The elements as the numbers that are plotted. *)
Definition arr_values (a : array) : list Q :=
  match a with
  | FloatArr l => l
  | IntArr _ _ l => map inject_Z l
  end.

(** [np.diff([a[i], a[j]]) < 0]. *)
Definition diff_is_negative (a : array) (i j : nat) : bool :=
  match a with
  | FloatArr l => Qltb (np_diff (item l i) (item l j)) 0
  | IntArr signed w l => (wrap signed w (nth j l 0 - nth i l 0) <? 0)%Z
  end.

Definition split_flags_nd (split_detection : value) (box : array)
  : bool * bool :=
  let x_split := false in
  let y_split := false in
  if truthy split_detection then
    (if diff_is_negative box 0 1 then true else x_split,
     if diff_is_negative box 2 3 then true else y_split)
  else (x_split, y_split).

Definition box_plot_nd (box : array) (ax : option handle)
    (split_detection : value) (kw : kwargs) : M unit :=
  if negb (arr_len box =? 4)%nat then raise RuntimeError
  else
    g <- plt_gca ;;
    xlim <- get_xlim g ;;
    g <- plt_gca ;;
    ylim <- get_ylim g ;;
    ax <- or_gca ax ;;
    let '(x_split, y_split) := split_flags_nd split_detection box in
    emit_all (box_lines ax xlim ylim (arr_values box) x_split y_split kw).

(** ** dict2box and box_plot_dict *)

(** A [slice(start, stop)] with both bounds given. *)
Record slice : Type := mkSlice { start : Q; stop : Q }.

(** [di[k]] on an xarray selection dict whose entries are slices. *)
Definition getitem (di : gmap string slice) (k : string) : result slice :=
  match di !! k with
  | Some s => Ok s
  | None => Raise KeyError
  end.

Definition dict2box (di : gmap string slice) (xdim ydim : string)
  : result (list Q) :=
  match getitem di xdim with
  | Raise e => Raise e
  | Ok sx =>
      match getitem di ydim with
      | Raise e => Raise e
      | Ok sy => Ok [start sx; stop sx; start sy; stop sy]
      end
  end.

Definition dict2box_xdim : string := "lon".
Definition dict2box_ydim : string := "lat".

(** The keyword arguments of [box_plot_dict] are those of [box_plot]: [ax]
    and [split_detection] where the caller names them ([None] for
    [split_detection] standing for a call that does not), and the rest. *)
Definition box_plot_dict (di : gmap string slice) (xdim ydim : string)
    (ax : option handle) (split_detection : option value) (kw : kwargs)
  : M unit :=
  box <- lift (dict2box di xdim ydim) ;;
  box_plot box ax
    (match split_detection with
     | None => box_plot_split_detection
     | Some sd => sd
     end) kw.

(** ** Helpers that depend on the libraries *)

Record line2d : Type := mkLine { get_color : pyobj }.

(** The arguments of [draw_dens_contours_teos10] other than [ax]; [ts_kwargs]
    of [tsdiagram] is one of these. *)
Record dens_args : Type := mkDensArgs {
  da_sigma : string;
  da_add_labels : bool;
  da_density_grid : nat;
  da_dens_interval : Q;
  da_salt_on_x : bool;
  da_slim : option (Q * Q);
  da_tlim : option (Q * Q);
  da_contour_kwargs : kwargs;
  da_c_label_kwargs : kwargs;
  da_kwargs : kwargs
}.

Definition dens_defaults : dens_args :=
  mkDensArgs "sigma0" true 20 1 true None None ∅ ∅ ∅.

(** ['sigma%i' % s for s in range(5)]. *)
Definition sigma_names : list string :=
  map (fun s => "sigma" ++ str (Z.of_nat s)) (seq 0 5).

(** [sigma[-1]] as a string. *)
Fixpoint last_char (s : string) : string :=
  match s with
  | EmptyString => ""
  | String c EmptyString => String c EmptyString
  | String _ s' => last_char s'
  end.

(** The limits and the two sample vectors [x], [y]. *)
Definition dens_axes_samples (ax : handle) (density_grid : nat)
    (salt_on_x : bool) (slim tlim : option (Q * Q))
  : M (list Q * list Q) :=
  if salt_on_x then
    slim <- match slim with Some l => ret l | None => get_xlim ax end ;;
    tlim <- match tlim with Some l => ret l | None => get_ylim ax end ;;
    let x := linspace (fst slim) (snd slim) density_grid in
    let y := linspace (fst tlim) (snd tlim) density_grid in
    ret (x, y)
  else
    tlim <- match tlim with Some l => ret l | None => get_xlim ax end ;;
    slim <- match slim with Some l => ret l | None => get_ylim ax end ;;
    let x := linspace (fst slim) (snd slim) density_grid in
    let y := linspace (fst tlim) (snd tlim) density_grid in
    ret (x, y).

(** The grids [(ss, tt)] handed to the sigma function ([tt] is written
    [tt_], the name being taken). *)
Definition dens_grids (salt_on_x : bool) (x y : list Q)
  : list (list Q) * list (list Q) :=
  if salt_on_x then
    let '(ss, tt_) := meshgrid x y in (ss, tt_)
  else
    let '(tt_, ss) := meshgrid x y in (ss, tt_).

(** [np.arange(np.floor(sig.min()), np.ceil(sig.max()), dens_interval)]. *)
Definition dens_levels (sig : list (list Q)) (dens_interval : Q)
  : result (list Q) :=
  match grid_min sig with
  | Raise e => Raise e
  | Ok lo =>
      match grid_max sig with
      | Raise e => Raise e
      | Ok hi => arange (np_floor lo) (np_ceil hi) dens_interval
      end
  end.

Section Libraries.

(** The colour of the line that [ax.plot] adds, from the state of the axes
    and the keyword arguments. *)
Variable pick_color : world -> handle -> kwargs -> pyobj.

(** [getattr(gsw, name)], applied entry by entry. *)
Variable gsw_sigma : string -> Q -> Q -> Q.

(** [gsw.SA_from_SP(SP, p, lon, lat)] and [gsw.CT_from_pt(SA, pt)]. *)
Variable SA_from_SP : list Q -> list Q -> list Q -> list Q -> list Q.
Variable CT_from_pt : list Q -> list Q -> list Q.

Definition ax_plot (ax : handle) (xs ys : list Q) (kw : kwargs) : M line2d :=
  fun w => (Ok (mkLine (pick_color w ax kw)), record (Plot ax xs ys kw) w).

Definition plot_line_shaded_std (x y std_y : list Q) (horizontal : bool)
    (ax : option handle) (line_kwargs fill_kwargs : kwargs) : M line2d :=
  let line_defaults : kwargs := ∅ in
  ax <- or_gca ax ;;
  let line_defaults := dict_update line_defaults line_kwargs in
  p <- (if horizontal then ax_plot ax x y line_defaults
        else ax_plot ax y x line_defaults) ;;
  let fill_defaults : kwargs :=
    {[ "color" := get_color p; "alpha" := Val (VFloat 0.35) ]} in
  let fill_defaults := dict_update fill_defaults fill_kwargs in
  lo <- lift (np_sub y std_y) ;;
  hi <- lift (np_add y std_y) ;;
  (if horizontal then emit (FillBetween ax x lo hi fill_defaults)
   else emit (FillBetweenx ax x lo hi fill_defaults)) ;;;
  ret p.

Definition draw_dens_contours_teos10 (ax : option handle) (a : dens_args)
  : M unit :=
  ax <- or_gca ax ;;
  if negb (existsb (String.eqb (da_sigma a)) sigma_names) then raise ValueError
  else
    xy <- dens_axes_samples ax (da_density_grid a) (da_salt_on_x a)
            (da_slim a) (da_tlim a) ;;
    let '(x, y) := xy in
    let '(ss, tt_) := dens_grids (da_salt_on_x a) x y in
    let sigma_func := gsw_sigma (da_sigma a) in
    let sig := on_grids sigma_func ss tt_ in
    levels <- lift (dens_levels sig (da_dens_interval a)) ;;
    let c_kwarg_defaults : kwargs :=
      {[ "levels" := Ndarray levels; "colors" := Val (VStr "0.4");
         "linestyles" := Val (VStr "--"); "linewidths" := Val (VFloat 0.5) ]} in
    let c_kwarg_defaults := dict_update c_kwarg_defaults (da_kwargs a) in
    let c_kwarg_defaults := dict_update c_kwarg_defaults (da_contour_kwargs a) in
    let c_label_kwarg_defaults : kwargs := {[ "fmt" := Val (VStr "%.02f") ]} in
    let c_label_kwarg_defaults :=
      dict_update c_label_kwarg_defaults (da_kwargs a) in
    let c_label_kwarg_defaults :=
      dict_update c_label_kwarg_defaults (da_c_label_kwargs a) in
    ch <- emit_artist (Contour ax x y sig c_kwarg_defaults) ;;
    emit (Clabel ax ch c_label_kwarg_defaults) ;;;
    if da_add_labels a then
      match c_kwarg_defaults !! "colors" with
      | None => raise KeyError
      | Some color =>
          g <- plt_gca ;;
          emit (Text g 0.05 0.05 ("$\sigma_{" ++ last_char (da_sigma a) ++ "}$") ax
                  {[ "fontsize" := Val (VInt 14);
                     "verticalalignment" := Val (VStr "center");
                     "horizontalalignment" := Val (VStr "center");
                     "color" := color ]})
      end
    else ret tt.

Definition temp_label (convert_teos10 : bool) : string :=
  if convert_teos10 then "Conservative Temperature [$^{\circ}C$]"
  else "Potential Temperature [$^{\circ}C$]".

Definition salt_label (convert_teos10 : bool) : string :=
  if convert_teos10 then "Absolute Salinity [$g/kg$]"
  else "Practical Salinity [$g/kg$]".

(** [any([a is None for a in [lon, lat, pressure]])] is the last case of the
    match on the three arguments. *)
Definition tsdiagram (salt temp : list Q) (color size : pyobj)
    (lon lat pressure : option (list Q)) (convert_teos10 : bool)
    (ts_kwargs : dens_args) (ax fig : option handle)
    (draw_density_contours draw_cbar add_labels : bool) (kw : kwargs)
  : M nat :=
  ax <- or_gca ax ;;
  fig <- match fig with None => plt_gcf | Some f => ret f end ;;
  st <- (if convert_teos10 then
           match lon, lat, pressure with
           | Some lon, Some lat, Some pressure =>
               let salt := SA_from_SP salt pressure lon lat in
               let temp := CT_from_pt salt temp in
               ret (salt, temp)
           | _, _, _ => raise ValueError
           end
         else ret (salt, temp)) ;;
  let '(salt, temp) := st in
  (if add_labels then
     emit (SetXlabel ax (salt_label convert_teos10)) ;;;
     emit (SetYlabel ax (temp_label convert_teos10))
   else ret tt) ;;;
  let scatter_kw_defaults : kwargs := {[ "s" := size; "c" := color ]} in
  let scatter_kw_defaults := dict_update scatter_kw_defaults kw in
  s <- emit_artist (Scatter ax salt temp scatter_kw_defaults) ;;
  (if draw_density_contours then draw_dens_contours_teos10 (Some ax) ts_kwargs
   else ret tt) ;;;
  (if draw_cbar then
     match color with
     | Val VNone => ret tt
     | Val (VStr _) | Val (VTuple _) => ret tt
     | Val (VList _) | Ndarray _ | DataArray _ => emit (Colorbar fig s ax)
     | _ => raise RuntimeError
     end
   else ret tt) ;;;
  ret s.

(** The statements of [tsdiagram] that follow the [scatter] call. *)
Definition after_scatter (ax fig : handle) (s : nat) (color : pyobj)
    (ts_kwargs : dens_args) (draw_density_contours draw_cbar : bool) : M nat :=
  (if draw_density_contours
   then draw_dens_contours_teos10 (Some ax) ts_kwargs
   else ret tt) ;;;
  (if draw_cbar then
     match color with
     | Val VNone => ret tt
     | Val (VStr _) | Val (VTuple _) => ret tt
     | Val (VList _) | Ndarray _ | DataArray _ => emit (Colorbar fig s ax)
     | _ => raise RuntimeError
     end
   else ret tt) ;;;
  ret s.

(** The label calls of [tsdiagram]. *)
Definition axis_labels (a : handle) (add_labels convert_teos10 : bool)
  : list call :=
  if add_labels then [SetXlabel a (salt_label convert_teos10);
                      SetYlabel a (temp_label convert_teos10)]
  else [].

End Libraries.

(** ** Vocabulary of the properties *)

(** Whatever its outcome, [m] keeps the calls recorded so far and appends
    calls that all satisfy [P]. *)
Definition emits {A} (P : call -> Prop) (m : M A) : Prop :=
  forall w, exists cs,
    trace (snd (m w)) = (trace w ++ cs)%list /\ Forall P cs.

(** Calls other than [scatter]. *)
Definition not_scatter (c : call) : Prop :=
  match c with Scatter _ _ _ _ => False | _ => True end.

(** A polyline on axes [a] with keyword arguments [kw] whose points all lie
    in the rectangle of the limits [xl], [yl]. *)
Definition line_in_view (a : handle) (kw : kwargs) (xl yl : Q * Q) (c : call)
  : Prop :=
  exists xs ys,
    c = Plot a xs ys kw
    /\ length xs = length ys
    /\ Forall (fun x => (fst xl <= x <= snd xl)%Q) xs
    /\ Forall (fun y => (fst yl <= y <= snd yl)%Q) ys.

(** The limits [draw_dens_contours_teos10] samples: the ones given, else
    those of the axes, salinity on x or on y. *)
Definition dens_slim (ax : handle) (salt_on_x : bool) (slim : option (Q * Q))
    (w : world) : Q * Q :=
  match slim with
  | Some l => l
  | None => if salt_on_x then xlim (get_axes ax w) else ylim (get_axes ax w)
  end.

Definition dens_tlim (ax : handle) (salt_on_x : bool) (tlim : option (Q * Q))
    (w : world) : Q * Q :=
  match tlim with
  | Some l => l
  | None => if salt_on_x then ylim (get_axes ax w) else xlim (get_axes ax w)
  end.

(** The keyword arguments [draw_dens_contours_teos10] ends up passing to
    [contour] and to [clabel]. *)
Definition contour_kw (a : dens_args) (levels : list Q) : kwargs :=
  dict_update
    (dict_update
       {[ "levels" := Ndarray levels; "colors" := Val (VStr "0.4");
          "linestyles" := Val (VStr "--"); "linewidths" := Val (VFloat 0.5) ]}
       (da_kwargs a))
    (da_contour_kwargs a).

Definition clabel_kw (a : dens_args) : kwargs :=
  dict_update (dict_update {[ "fmt" := Val (VStr "%.02f") ]} (da_kwargs a))
    (da_c_label_kwargs a).

(** The [plt.text] call that labels the contours. *)
Definition sigma_text (g ax : handle) (sigma : string) (color : pyobj) : call :=
  Text g 0.05 0.05 ("$\sigma_{" ++ last_char sigma ++ "}$") ax
    {[ "fontsize" := Val (VInt 14);
       "verticalalignment" := Val (VStr "center");
       "horizontalalignment" := Val (VStr "center");
       "color" := color ]}.

(** The names [draw_dens_contours_teos10] accepts. *)
Definition valid_sigma (s : string) : Prop :=
  In s ["sigma0"; "sigma1"; "sigma2"; "sigma3"; "sigma4"].

(** The values [tsdiagram] scatters, where it gets that far: converted with
    gsw, or as passed. *)
Definition ts_values (SA_from_SP : list Q -> list Q -> list Q -> list Q -> list Q)
    (CT_from_pt : list Q -> list Q -> list Q) (salt temp : list Q)
    (lon lat pressure : option (list Q)) (convert_teos10 : bool)
  : option (list Q * list Q) :=
  if convert_teos10 then
    match lon, lat, pressure with
    | Some lon, Some lat, Some pressure =>
        Some (SA_from_SP salt pressure lon lat,
              CT_from_pt (SA_from_SP salt pressure lon lat) temp)
    | _, _, _ => None
    end
  else Some (salt, temp).

(** The classes of [color] that the colorbar step of [tsdiagram] tells
    apart. *)
Definition color_for_colorbar (color : pyobj) : Prop :=
  match color with
  | Val (VList _) | Ndarray _ | DataArray _ => True
  | _ => False
  end.

Definition color_without_colorbar (color : pyobj) : Prop :=
  match color with
  | Val VNone | Val (VStr _) | Val (VTuple _) => True
  | _ => False
  end.

Definition color_unrecognised (color : pyobj) : Prop :=
  match color with
  | Val (VBool _) | Val (VInt _) | Val (VFloat _) | Other _ => True
  | _ => False
  end.

(** A session with nothing drawn yet, and a call of
    [draw_dens_contours_teos10] with a 2 x 2 grid. *)
Definition new_figure : world := mkWorld ∅ 0 0 [].

Definition small_grid : dens_args :=
  mkDensArgs "sigma0" true 2 1 true None None ∅ ∅ ∅.

(** * Properties *)

(** ** Running a computation *)

Lemma bind_ok {A B} (m : M A) (k : A -> M B) w a w' :
  m w = (Ok a, w') -> bind m k w = k a w'.
Proof. intros H. unfold bind. now rewrite H. Qed.

Lemma bind_raise {A B} (m : M A) (k : A -> M B) w e w' :
  m w = (Raise e, w') -> bind m k w = (Raise e, w').
Proof. intros H. unfold bind. now rewrite H. Qed.

Lemma get_put_axes_eq ax a w : get_axes ax (put_axes ax a w) = a.
Proof. unfold get_axes, put_axes. cbn. now rewrite lookup_insert_eq. Qed.

Lemma get_put_axes_ne ax ax' a w :
  ax <> ax' -> get_axes ax' (put_axes ax a w) = get_axes ax' w.
Proof.
  intros Hne. unfold get_axes, put_axes. cbn. now rewrite lookup_insert_ne.
Qed.

Lemma get_axes_record ax c w : get_axes ax (record c w) = get_axes ax w.
Proof. reflexivity. Qed.

Ltac axes_simpl :=
  repeat (rewrite get_axes_record || rewrite get_put_axes_eq).

(** ** center_lim *)

Lemma Qmult_m1_l (m : Q) : ((-1) * m)%Q = (- m)%Q.
Proof. destruct m as [[|p|p] d]; reflexivity. Qed.

Lemma Qmult_1_l_eq (m : Q) : (1 * m)%Q = m.
Proof. destruct m as [[|p|p] d]; reflexivity. Qed.

Lemma pm_one_times_eq (m : Q) : pm_one_times m = ((- m)%Q, m).
Proof. unfold pm_one_times. now rewrite Qmult_m1_l, Qmult_1_l_eq. Qed.

Lemma abs_max_nonneg lim : (0 <= abs_max lim)%Q.
Proof.
  unfold abs_max. apply Qle_trans with (Qabs (fst lim)).
  - apply Qabs_nonneg.
  - apply Q.le_max_l.
Qed.

Lemma abs_max_bounds lim :
  (Qabs (fst lim) <= abs_max lim)%Q /\ (Qabs (snd lim) <= abs_max lim)%Q.
Proof. unfold abs_max. split; [apply Q.le_max_l | apply Q.le_max_r]. Qed.

Lemma abs_max_attained lim :
  abs_max lim = Qabs (fst lim) \/ abs_max lim = Qabs (snd lim).
Proof.
  unfold abs_max, Qmax, GenericMinMax.gmax.
  destruct (Qabs (fst lim) ?= Qabs (snd lim))%Q; auto.
Qed.

Lemma center_lim_x_run ax w :
  let a := get_axes ax w in
  let m := abs_max (xlim a) in
  center_lim_x ax w =
    (Ok tt, record (SetXlim ax ((- m)%Q, m))
              (put_axes ax (mkAxes ((- m)%Q, m) (ylim a)) w)).
Proof.
  cbn. unfold center_lim_x, bind, get_xlim, set_xlim.
  now rewrite pm_one_times_eq.
Qed.

Lemma center_lim_y_run ax w :
  let a := get_axes ax w in
  let m := abs_max (ylim a) in
  center_lim_y ax w =
    (Ok tt, record (SetYlim ax ((- m)%Q, m))
              (put_axes ax (mkAxes (xlim a) ((- m)%Q, m)) w)).
Proof.
  cbn. unfold center_lim_y, bind, get_ylim, set_ylim.
  now rewrite pm_one_times_eq.
Qed.

(** C3: [center_lim] with ['x'] (resp. ['y']) sets the x (resp. y) limits
    of the axes to [(-m, m)], where [m] is the maximum of the absolute
    values of the two limits the axis had: it is one of the two absolute
    values and neither exceeds it.  The other axis is left alone.  With
    ['xy'] or ['yx'] it does so to both axes (x first, each [m] taken from
    the limits before the call); with any other [which] it raises
    ValueError and the plotting state is the one it was called in. *)
Theorem center_lim_spec (ax : handle) (w : world) :
  let a := get_axes ax w in
  exists mx my : Q,
    ((mx = Qabs (fst (xlim a)) \/ mx = Qabs (snd (xlim a)))
     /\ (Qabs (fst (xlim a)) <= mx)%Q /\ (Qabs (snd (xlim a)) <= mx)%Q)
    /\ ((my = Qabs (fst (ylim a)) \/ my = Qabs (snd (ylim a)))
        /\ (Qabs (fst (ylim a)) <= my)%Q /\ (Qabs (snd (ylim a)) <= my)%Q)
    /\ (center_lim ax "x" w =
          (Ok tt, record (SetXlim ax ((- mx)%Q, mx))
                    (put_axes ax (mkAxes ((- mx)%Q, mx) (ylim a)) w)))
    /\ (center_lim ax "y" w =
          (Ok tt, record (SetYlim ax ((- my)%Q, my))
                    (put_axes ax (mkAxes (xlim a) ((- my)%Q, my)) w)))
    /\ (forall which, which = "xy" \/ which = "yx" ->
          exists w',
            center_lim ax which w = (Ok tt, w')
            /\ get_axes ax w' = mkAxes ((- mx)%Q, mx) ((- my)%Q, my)
            /\ trace w' = (trace w ++ [SetXlim ax ((- mx)%Q, mx);
                                       SetYlim ax ((- my)%Q, my)])%list
            /\ (forall ax', ax' <> ax -> get_axes ax' w' = get_axes ax' w))
    /\ (forall which,
          which <> "x" -> which <> "y" -> which <> "xy" -> which <> "yx" ->
          center_lim ax which w = (Raise ValueError, w)).
Proof.
  intros a. exists (abs_max (xlim a)), (abs_max (ylim a)).
  split; [split; [apply abs_max_attained | apply abs_max_bounds]|].
  split; [split; [apply abs_max_attained | apply abs_max_bounds]|].
  split; [|split; [|split]].
  - exact (center_lim_x_run ax w).
  - exact (center_lim_y_run ax w).
  - intros which Hw.
    assert (Hc : center_lim ax which = (center_lim_x ax ;;; center_lim_y ax)).
    { destruct Hw as [-> | ->]; reflexivity. }
    rewrite Hc. clear Hc Hw.
    eexists. split; [|split; [|split]].
    + erewrite bind_ok by apply center_lim_x_run. apply center_lim_y_run.
    + now axes_simpl.
    + cbn. axes_simpl. cbn. now rewrite <- app_assoc.
    + intros ax' Hne. axes_simpl.
      rewrite get_put_axes_ne by congruence. axes_simpl.
      now rewrite get_put_axes_ne by congruence.
  - intros which Hx Hy Hxy Hyx. unfold center_lim.
    apply String.eqb_neq in Hx, Hy, Hxy, Hyx.
    cbn [existsb]. now rewrite Hx, Hy, Hxy, Hyx.
Qed.

(** [m] is what the claim calls the maximum absolute value: it is one of
    the two absolute values and bounds both. *)
Lemma abs_max_is_max lim :
  (abs_max lim = Qabs (fst lim) \/ abs_max lim = Qabs (snd lim))
  /\ (Qabs (fst lim) <= abs_max lim)%Q /\ (Qabs (snd lim) <= abs_max lim)%Q.
Proof. split; [apply abs_max_attained | apply abs_max_bounds]. Qed.

(** ** depth_logscale *)

Lemma to_uint_nonnil (p : positive) : Pos.to_uint p <> Decimal.Nil.
Proof.
  intros H. generalize (DecimalPos.Unsigned.of_to p). rewrite H. discriminate.
Qed.

(** Reading the decimal string of an int gives the int back. *)
Lemma int_of_str_str (n : Z) : int_of_str (str n) = Some n.
Proof.
  unfold int_of_str, str. rewrite NilZero.isi.
  - cbn. now rewrite DecimalZ.of_to.
  - destruct n; cbn; try discriminate.
    intros [= H]. now apply to_uint_nonnil in H.
  - destruct n; cbn; try discriminate.
    intros [= H]. now apply to_uint_nonnil in H.
Qed.

Lemma str_inj (m n : Z) : str m = str n -> m = n.
Proof.
  intros H. apply (f_equal int_of_str) in H.
  rewrite !int_of_str_str in H. congruence.
Qed.

(** C7: [depth_logscale] issues, in this order, [set_yscale('symlog',
    linthreshy=yscale)], [set_yticks(ticks)], [set_yticklabels] with the
    decimal string of every tick, and [invert_yaxis], which exchanges the
    two y limits; [ticks] is the given list, or [0, 100, 250, 500, 1000,
    2500, 5000] when none is given. *)
Theorem depth_logscale_spec (ax : handle) (yscale : Q)
    (ticks : option (list Z)) (w : world) :
  let t := match ticks with None => [0; 100; 250; 500; 1000; 2500; 5000]%Z
                          | Some t => t end in
  let a := get_axes ax w in
  exists w' labels,
    depth_logscale ax yscale ticks w = (Ok tt, w')
    /\ trace w' = (trace w ++ [SetYscale ax "symlog" yscale;
                               SetYticks ax t;
                               SetYticklabels ax labels;
                               InvertYaxis ax])%list
    /\ length labels = length t
    /\ (forall i n, t !! i = Some n ->
          exists l, labels !! i = Some l /\ l = str n /\ int_of_str l = Some n)
    /\ (ticks = None ->
          labels = ["0"; "100"; "250"; "500"; "1000"; "2500"; "5000"])
    /\ get_axes ax w' = mkAxes (xlim a) (snd (ylim a), fst (ylim a)).
Proof.
  intros t a. eexists. exists (map str t).
  split; [|split; [|split; [|split; [|split]]]].
  - unfold depth_logscale, bind, emit, invert_yaxis. cbn. reflexivity.
  - cbn. rewrite <- !app_assoc. destruct ticks; reflexivity.
  - apply length_map.
  - intros i n Hi. exists (str n). split; [|split].
    + rewrite list_lookup_fmap_Some. eauto.
    + reflexivity.
    + apply int_of_str_str.
  - intros ->. reflexivity.
  - now axes_simpl.
Qed.

(** ** box_plot *)

Lemma Qltb_lt (x y : Q) : Qltb x y = true <-> (x < y)%Q.
Proof.
  unfold Qltb. rewrite Qlt_alt. destruct (x ?= y)%Q; split; congruence.
Qed.

Lemma Qltb_ge (x y : Q) : Qltb x y = false <-> (y <= x)%Q.
Proof.
  rewrite <- Bool.not_true_iff_false, Qltb_lt. split.
  - apply Qnot_lt_le.
  - apply Qle_not_lt.
Qed.

Lemma diff_neg_iff (a b : Q) : (np_diff a b < 0)%Q <-> (b < a)%Q.
Proof.
  unfold np_diff. split; intros H.
  - apply Qplus_lt_l with (z := (- a)%Q). now rewrite Qplus_opp_r.
  - apply Qplus_lt_l with (z := (- a)%Q) in H. now rewrite Qplus_opp_r in H.
Qed.

Lemma diff_flag_wraps (a b : Q) : (b < a)%Q -> Qltb (np_diff a b) 0 = true.
Proof. intros H. now apply Qltb_lt, diff_neg_iff. Qed.

Lemma diff_flag_plain (a b : Q) : (a <= b)%Q -> Qltb (np_diff a b) 0 = false.
Proof.
  intros H. apply Qltb_ge. unfold np_diff.
  apply Qplus_le_l with (z := a). ring_simplify. exact H.
Qed.

Lemma split_flags_truthy sd box :
  truthy sd = true ->
  split_flags sd box =
    (Qltb (np_diff (item box 0) (item box 1)) 0,
     Qltb (np_diff (item box 2) (item box 3)) 0).
Proof.
  intros H. unfold split_flags. rewrite H.
  now destruct (Qltb _ 0), (Qltb _ 0).
Qed.

Lemma split_flags_falsy sd box :
  truthy sd = false -> split_flags sd box = (false, false).
Proof. intros H. unfold split_flags. now rewrite H. Qed.

Lemma split_flags_nd_truthy sd box :
  truthy sd = true ->
  split_flags_nd sd box = (diff_is_negative box 0 1, diff_is_negative box 2 3).
Proof.
  intros H. unfold split_flags_nd. rewrite H.
  now destruct (diff_is_negative box 0 1), (diff_is_negative box 2 3).
Qed.

Lemma split_flags_nd_falsy sd box :
  truthy sd = false -> split_flags_nd sd box = (false, false).
Proof. intros H. unfold split_flags_nd. now rewrite H. Qed.

Lemma wrap_signed_id (w : int_width) (z : Z) :
  representable true w z -> wrap true w z = z.
Proof.
  unfold representable, wrap. intros H.
  destruct w; cbn [bits] in *;
    match goal with
    | |- context [(2 ^ ?n)%Z] =>
        let m := eval vm_compute in (2 ^ n)%Z in
        let h := eval vm_compute in (2 ^ (n - 1))%Z in
        change (2 ^ n)%Z with m in *; change (2 ^ (n - 1))%Z with h in *;
        change (m / 2)%Z with h
    end;
    rewrite Z.mod_small; lia.
Qed.

Lemma wrap_unsigned_nonneg (w : int_width) (z : Z) : (0 <= wrap false w z)%Z.
Proof.
  unfold wrap. apply Z.mod_pos_bound. destruct w; reflexivity.
Qed.

(** C1: with split detection enabled, the x split is detected exactly when
    [np.diff([box[0], box[1]])], taken in the dtype of the box, is
    negative, and the y split exactly when [np.diff([box[2], box[3]])] is.
    For a float box, and for a signed integer box whose difference is
    representable in its dtype, that is exactly when the start is greater
    than the stop, and no split is detected when each stop is at least its
    start.  For an unsigned integer box no split is ever detected. *)
Theorem split_detected_iff (sd : value) (box : array) :
  truthy sd = true ->
  let x_split := fst (split_flags_nd sd box) in
  let y_split := snd (split_flags_nd sd box) in
  x_split = diff_is_negative box 0 1
  /\ y_split = diff_is_negative box 2 3
  /\ match box with
     | FloatArr l =>
         (x_split = true <-> (item l 1 - item l 0 < 0)%Q)
         /\ (x_split = true <-> (item l 1 < item l 0)%Q)
         /\ (y_split = true <-> (item l 3 - item l 2 < 0)%Q)
         /\ (y_split = true <-> (item l 3 < item l 2)%Q)
         /\ ((item l 0 <= item l 1)%Q -> (item l 2 <= item l 3)%Q ->
             split_flags_nd sd box = (false, false))
     | IntArr true w l =>
         (representable true w (nth 1 l 0 - nth 0 l 0)%Z ->
          (x_split = true <-> (nth 1 l 0 < nth 0 l 0)%Z))
         /\ (representable true w (nth 3 l 0 - nth 2 l 0)%Z ->
             (y_split = true <-> (nth 3 l 0 < nth 2 l 0)%Z))
     | IntArr false w l => split_flags_nd sd box = (false, false)
     end.
Proof.
  intros Hsd. cbn zeta. rewrite (split_flags_nd_truthy _ _ Hsd). cbn [fst snd].
  split; [reflexivity|]. split; [reflexivity|].
  destruct box as [l | [|] w l]; cbn [diff_is_negative].
  - split; [|split; [|split; [|split]]].
    + apply Qltb_lt.
    + rewrite Qltb_lt. apply diff_neg_iff.
    + apply Qltb_lt.
    + rewrite Qltb_lt. apply diff_neg_iff.
    + intros Hx Hy. f_equal; now apply diff_flag_plain.
  - split; intros Hr; rewrite (wrap_signed_id _ _ Hr), Z.ltb_lt; lia.
  - f_equal; apply Z.ltb_ge, wrap_unsigned_nonneg.
Qed.

(** An int64 box from the largest to the smallest value: the start is
    greater than the stop, the difference wraps to [+1], and no x split is
    detected. *)
Lemma split_detected_iff_counterexample :
  representable true W64 9223372036854775807
  /\ representable true W64 (-9223372036854775808)
  /\ (-9223372036854775808 < 9223372036854775807)%Z
  /\ truthy (VStr "True") = true
  /\ wrap true W64 (-9223372036854775808 - 9223372036854775807) = 1%Z
  /\ split_flags_nd (VStr "True")
       (IntArr true W64 [9223372036854775807; -9223372036854775808; 0; 1]%Z)
     = (false, false).
Proof.
  unfold representable. cbn [bits].
  repeat split; try reflexivity; discriminate.
Qed.

Lemma emit_all_run (cs : list call) (w : world) :
  emit_all cs w = (Ok tt, fold_left (fun w c => record c w) cs w).
Proof.
  revert w. induction cs as [|c cs IH]; intros w; [reflexivity|].
  cbn [emit_all fold_left]. unfold bind, emit. apply IH.
Qed.

Lemma box_plot_run (box : list Q) ax sd kw w :
  length box = 4%nat ->
  box_plot box ax sd kw w =
    (Ok tt,
     fold_left (fun w c => record c w)
       (box_lines (target ax w) (xlim (get_axes (gca w) w))
          (ylim (get_axes (gca w) w)) box
          (fst (split_flags sd box)) (snd (split_flags sd box)) kw) w).
Proof.
  intros Hlen. unfold box_plot. rewrite Hlen. cbn [Nat.eqb negb].
  unfold bind, plt_gca, get_xlim, get_ylim.
  destruct (split_flags sd box) as [xs ys]. cbn [fst snd].
  destruct ax as [a|]; cbn [or_gca ret plt_gca target]; apply emit_all_run.
Qed.

Lemma box_plot_nd_run (box : array) ax sd kw w :
  arr_len box = 4%nat ->
  box_plot_nd box ax sd kw w =
    (Ok tt,
     fold_left (fun w c => record c w)
       (box_lines (target ax w) (xlim (get_axes (gca w) w))
          (ylim (get_axes (gca w) w)) (arr_values box)
          (fst (split_flags_nd sd box)) (snd (split_flags_nd sd box)) kw) w).
Proof.
  intros Hlen. unfold box_plot_nd. rewrite Hlen. cbn [Nat.eqb negb].
  unfold bind, plt_gca, get_xlim, get_ylim.
  destruct (split_flags_nd sd box) as [xs ys]. cbn [fst snd].
  destruct ax as [a|]; cbn [or_gca ret plt_gca target]; apply emit_all_run.
Qed.

(** [box_plot] is [box_plot_nd] on a float box. *)
Lemma box_plot_nd_float (box : list Q) ax sd kw :
  box_plot_nd (FloatArr box) ax sd kw = box_plot box ax sd kw.
Proof. reflexivity. Qed.

(** C2: for a box with the elements [[x1, x2, y1, y2]], drawn on its axes
    with the limits of the current axes when the call is made:
    with split detection enabled [box_plot] draws
    - one closed outline [(x1,y1) (x1,y2) (x2,y2) (x2,y1) (x1,y1)] when
      neither difference [np.diff([x1, x2])], [np.diff([y1, y2])] is
      negative in the dtype of the box;
    - two outlines when only the y difference is negative, one from [y1]
      to the upper y limit and one from [y2] to the lower y limit, and
      likewise two outlines when only the x difference is negative, one
      from [x1] to the right x limit and one from [x2] to the left x limit;
    - four three-point corner lines when both are negative, each running
      from an x limit to a y limit;
    with split detection disabled it draws the one closed outline whatever
    the coordinates. *)
Theorem box_plot_draws (box : array) (x1 x2 y1 y2 : Q) (ax : option handle)
    (sd : value) (kw : kwargs) (w : world) :
  arr_values box = [x1; x2; y1; y2] ->
  let a := target ax w in
  let xl := fst (xlim (get_axes (gca w) w)) in
  let xr := snd (xlim (get_axes (gca w) w)) in
  let yb := fst (ylim (get_axes (gca w) w)) in
  let yt := snd (ylim (get_axes (gca w) w)) in
  let rectangle :=
    record (Plot a [x1; x1; x2; x2; x1] [y1; y2; y2; y1; y1] kw) w in
  (truthy sd = true ->
   match diff_is_negative box 0 1, diff_is_negative box 2 3 with
   | false, false => box_plot_nd box ax sd kw w = (Ok tt, rectangle)
   | false, true =>
       box_plot_nd box ax sd kw w =
         (Ok tt,
          record (Plot a [x1; x1; x2; x2; x1] [yb; y2; y2; yb; yb] kw)
            (record (Plot a [x1; x1; x2; x2; x1] [yt; y1; y1; yt; yt] kw) w))
   | true, false =>
       box_plot_nd box ax sd kw w =
         (Ok tt,
          record (Plot a [xl; x2; x2; xl; xl] [y1; y1; y2; y2; y1] kw)
            (record (Plot a [xr; x1; x1; xr; xr] [y1; y1; y2; y2; y1] kw) w))
   | true, true =>
       box_plot_nd box ax sd kw w =
         (Ok tt,
          record (Plot a [xl; x2; x2] [y2; y2; yb] kw)
            (record (Plot a [xr; x1; x1] [y2; y2; yb] kw)
               (record (Plot a [xl; x2; x2] [y1; y1; yt] kw)
                  (record (Plot a [xr; x1; x1] [y1; y1; yt] kw) w))))
   end)
  /\ (truthy sd = false -> box_plot_nd box ax sd kw w = (Ok tt, rectangle))
  /\ (forall l, box = FloatArr l ->
        (diff_is_negative box 0 1 = true <-> (x2 < x1)%Q)
        /\ (diff_is_negative box 2 3 = true <-> (y2 < y1)%Q)).
Proof.
  intros Hbox a xl xr yb yt rectangle.
  assert (Hlen : arr_len box = 4%nat).
  { destruct box; cbn in *; [now rewrite Hbox|].
    apply (f_equal (@length Q)) in Hbox. now rewrite length_map in Hbox. }
  rewrite (box_plot_nd_run box ax sd kw w Hlen), Hbox. fold a.
  split; [|split].
  - intros Hsd. rewrite (split_flags_nd_truthy _ _ Hsd). cbn [fst snd].
    unfold box_lines, item. cbn [nth].
    destruct (diff_is_negative box 0 1), (diff_is_negative box 2 3);
      reflexivity.
  - intros Hsd. rewrite (split_flags_nd_falsy _ _ Hsd). reflexivity.
  - intros l ->. cbn in Hbox. subst l. cbn [diff_is_negative item nth].
    rewrite !Qltb_lt. split; apply diff_neg_iff.
Qed.

(** A box that wraps in x, drawn with [split_detection=False]: one plain
    rectangle, no split segment. *)
Lemma box_plot_draws_counterexample :
  (-170 < 170)%Q /\ (10 <= 20)%Q
  /\ box_plot_nd (FloatArr [170; -170; 10; 20]%Q) None (VBool false) ∅
       (mkWorld ∅ 0 0 [])
     = (Ok tt,
        record (Plot 0 [170; 170; -170; -170; 170]%Q [10; 20; 20; 10; 10]%Q ∅)
          (mkWorld ∅ 0 0 [])).
Proof.
  split; [reflexivity|]. split; [discriminate|]. reflexivity.
Qed.

(** C8: a box whose length is not 4 makes [box_plot] raise RuntimeError
    with the plotting state as it was (no limit has been read, no line
    drawn); a box of length 4 never makes it raise. *)
Theorem box_plot_length_check (box : list Q) (ax : option handle)
    (sd : value) (kw : kwargs) (w : world) :
  (length box <> 4%nat -> box_plot box ax sd kw w = (Raise RuntimeError, w))
  /\ (length box = 4%nat ->
      exists w', box_plot box ax sd kw w = (Ok tt, w')
                 /\ axs w' = axs w
                 /\ exists lines, trace w' = (trace w ++ lines)%list
                                  /\ lines <> []).
Proof.
  split; intros Hlen.
  - unfold box_plot. apply Nat.eqb_neq in Hlen. now rewrite Hlen.
  - rewrite (box_plot_run box ax sd kw w Hlen).
    set (cs := box_lines _ _ _ _ _ _ _).
    eexists. split; [reflexivity|].
    assert (Hfold : forall cs w0,
               axs (fold_left (fun w c => record c w) cs w0) = axs w0
               /\ trace (fold_left (fun w c => record c w) cs w0)
                  = (trace w0 ++ cs)%list).
    { clear. induction cs as [|c cs IH]; intros w0; cbn [fold_left].
      - now rewrite app_nil_r.
      - destruct (IH (record c w0)) as [Ha Ht]. rewrite Ha, Ht. cbn.
        now rewrite <- app_assoc. }
    destruct (Hfold cs w) as [Ha Ht]. split; [exact Ha|].
    exists cs. split; [exact Ht|].
    subst cs. unfold box_lines.
    now destruct (fst (split_flags sd box)), (snd (split_flags sd box)).
Qed.

(** C9: [split_detection] defaults to the string ['True'] and only its
    truth value is used.  Every truthy argument, the string ['False']
    among them, gives the flags of the two differences, the same as
    [True] gives; a falsy argument, such as the boolean [False], leaves
    both flags false, and the box is then drawn as one plain rectangle
    whatever its coordinates.  Where a difference is negative the flags
    are left false only by a falsy argument. *)
Theorem split_detection_truthiness (box : array) (x1 x2 y1 y2 : Q)
    (ax : option handle) (kw : kwargs) (w : world) :
  arr_values box = [x1; x2; y1; y2] ->
  box_plot_split_detection = VStr "True"
  /\ truthy (VStr "True") = true
  /\ truthy (VStr "False") = true
  /\ truthy (VBool false) = false
  /\ (forall sd, truthy sd = true ->
        split_flags_nd sd box = (diff_is_negative box 0 1,
                                 diff_is_negative box 2 3)
        /\ split_flags_nd sd box = split_flags_nd (VBool true) box)
  /\ (forall sd, truthy sd = false ->
        split_flags_nd sd box = (false, false)
        /\ box_plot_nd box ax sd kw w =
             (Ok tt, record (Plot (target ax w) [x1; x1; x2; x2; x1]
                               [y1; y2; y2; y1; y1] kw) w))
  /\ (forall sd,
        diff_is_negative box 0 1 = true \/ diff_is_negative box 2 3 = true ->
        split_flags_nd sd box = (false, false) -> truthy sd = false).
Proof.
  intros Hbox. split; [reflexivity|]. do 3 (split; [reflexivity|]).
  assert (Hlen : arr_len box = 4%nat).
  { destruct box; cbn in *; [now rewrite Hbox|].
    apply (f_equal (@length Q)) in Hbox. now rewrite length_map in Hbox. }
  split; [|split].
  - intros sd Hsd. rewrite (split_flags_nd_truthy _ _ Hsd).
    split; [reflexivity|]. now rewrite (split_flags_nd_truthy (VBool true)).
  - intros sd Hsd. split; [now apply split_flags_nd_falsy|].
    rewrite (box_plot_nd_run box ax sd kw w Hlen), Hbox.
    now rewrite (split_flags_nd_falsy _ _ Hsd).
  - intros sd Hneg Hflags. destruct (truthy sd) eqn:Hsd; [|reflexivity].
    rewrite (split_flags_nd_truthy _ _ Hsd) in Hflags.
    injection Hflags as Hx Hy. destruct Hneg; congruence.
Qed.

(** ** What a computation adds to the trace *)

Section Emits.

Context {A : Type} (P : call -> Prop).

Lemma emits_silent (m : M A) :
  (forall w, trace (snd (m w)) = trace w) -> emits P m.
Proof.
  intros H w. exists []. rewrite H, app_nil_r. split; [reflexivity|constructor].
Qed.

Lemma emits_ret (a : A) : emits P (ret a).
Proof. now apply emits_silent. Qed.

Lemma emits_raise (e : exn) : emits P (@raise A e).
Proof. now apply emits_silent. Qed.

Lemma emits_lift (r : result A) : emits P (lift r).
Proof. now apply emits_silent. Qed.

Lemma emits_bind {B} (m : M B) (k : B -> M A) :
  emits P m -> (forall b, emits P (k b)) -> emits P (bind m k).
Proof.
  intros Hm Hk w. unfold bind. destruct (Hm w) as (cs & Hcs & HP).
  destruct (m w) as [[b|e] w1]; cbn [snd] in *.
  - destruct (Hk b w1) as (cs' & Hcs' & HP'). exists (cs ++ cs')%list.
    split; [now rewrite Hcs', Hcs, app_assoc | now apply Forall_app].
  - now exists cs.
Qed.

End Emits.

Lemma emits_emit P (c : call) : P c -> emits P (emit c).
Proof. intros H w. exists [c]. split; [reflexivity|]. now repeat constructor. Qed.

Lemma emits_emit_artist P (c : call) : P c -> emits P (emit_artist c).
Proof. intros H w. exists [c]. split; [reflexivity|]. now repeat constructor. Qed.

Lemma emits_plt_gca P : emits P plt_gca.
Proof. now apply emits_silent. Qed.

Lemma emits_plt_gcf P : emits P plt_gcf.
Proof. now apply emits_silent. Qed.

Lemma emits_get_xlim P ax : emits P (get_xlim ax).
Proof. now apply emits_silent. Qed.

Lemma emits_get_ylim P ax : emits P (get_ylim ax).
Proof. now apply emits_silent. Qed.

Lemma emits_or_gca P ax : emits P (or_gca ax).
Proof. destruct ax; now apply emits_silent. Qed.

Create HintDb emits.
#[local] Hint Resolve emits_ret emits_raise emits_lift emits_plt_gca
  emits_plt_gcf emits_get_xlim emits_get_ylim emits_or_gca : emits.

Ltac emits_step :=
  match goal with
  | |- emits _ (bind _ _) => apply emits_bind; [|intros ?]
  | |- emits _ (if ?b then _ else _) => destruct b
  | |- emits _ (match ?o with Some _ => _ | None => _ end) => destruct o
  | |- emits _ (let '(_, _) := ?p in _) => destruct p
  | |- emits _ (emit _) => apply emits_emit; exact I
  | |- emits _ (emit_artist _) => apply emits_emit_artist; exact I
  | |- emits _ _ => solve [auto with emits]
  end.

Lemma emits_dens_axes_samples P ax n b slim tlim :
  emits P (dens_axes_samples ax n b slim tlim).
Proof. unfold dens_axes_samples. repeat emits_step. Qed.
#[local] Hint Resolve emits_dens_axes_samples : emits.

(** ** Helpers over the libraries *)

Section LibraryFacts.

Variable pick_color : world -> handle -> kwargs -> pyobj.
Variable gsw_sigma : string -> Q -> Q -> Q.
Variable SA_from_SP : list Q -> list Q -> list Q -> list Q -> list Q.
Variable CT_from_pt : list Q -> list Q -> list Q.

(** [draw_dens_contours_teos10] issues no [scatter]. *)
Lemma emits_draw_dens ax a :
  emits not_scatter (draw_dens_contours_teos10 gsw_sigma ax a).
Proof. unfold draw_dens_contours_teos10. repeat emits_step. Qed.

Lemma np_binop_same_shape f (a b : list Q) :
  length a = length b -> np_binop f a b = Ok (zip_with f a b).
Proof. intros H. unfold np_binop. now rewrite H, Nat.eqb_refl. Qed.

(** C6: for [x], [y] and [std_y] of one length, [plot_line_shaded_std]
    draws the line and then the band between [y - std_y] and [y + std_y],
    taken entry by entry.  With [horizontal] true the line is [plot(x, y)]
    and the band [fill_between] over [x]; with [horizontal] false the line
    is [plot(y, x)] and the band [fill_betweenx] along the y-axis over [x],
    between the same two boundaries. *)
Theorem plot_line_shaded_std_spec (x y std_y : list Q) (horizontal : bool)
    (ax : option handle) (line_kwargs fill_kwargs : kwargs) (w : world) :
  length x = length y -> length std_y = length y ->
  let a := target ax w in
  let p := mkLine (pick_color w a line_kwargs) in
  let fill_kw : kwargs :=
    fill_kwargs ∪ {[ "color" := get_color p; "alpha" := Val (VFloat 0.35) ]} in
  exists lo hi : list Q,
    plot_line_shaded_std pick_color x y std_y horizontal ax line_kwargs
        fill_kwargs w =
      (Ok p,
       record (if horizontal then FillBetween a x lo hi fill_kw
               else FillBetweenx a x lo hi fill_kw)
         (record (if horizontal then Plot a x y line_kwargs
                  else Plot a y x line_kwargs) w))
    /\ length lo = length y /\ length hi = length y
    /\ (forall i yi si, y !! i = Some yi -> std_y !! i = Some si ->
          lo !! i = Some (yi - si)%Q /\ hi !! i = Some (yi + si)%Q).
Proof.
  intros _ Hlen a p fill_kw. symmetry in Hlen.
  exists (zip_with Qminus y std_y), (zip_with Qplus y std_y).
  split; [|split; [|split]].
  - unfold plot_line_shaded_std, dict_update.
    rewrite (right_id_L ∅ (∪) line_kwargs).
    assert (Hax : or_gca ax w = (Ok a, w)) by now destruct ax.
    rewrite (bind_ok _ _ _ _ _ Hax).
    unfold np_sub, np_add. rewrite !(np_binop_same_shape _ _ _ Hlen).
    destruct horizontal; reflexivity.
  - rewrite length_zip_with. lia.
  - rewrite length_zip_with. lia.
  - intros i yi si Hy Hs. split; apply lookup_zip_with_Some; eauto.
Qed.

(** ** draw_dens_contours_teos10 *)

(** With salinity on the x-axis the sigma function is evaluated at
    [(x[j], y[i])], [x] the salinity samples and [y] the temperature
    samples. *)
Lemma dens_grids_salt_on_x (f : Q -> Q -> Q) (x y : list Q) (i j : nat)
    (s t : Q) :
  x !! j = Some s -> y !! i = Some t ->
  let '(ss, tt_) := dens_grids true x y in
  exists row, on_grids f ss tt_ !! i = Some row /\ row !! j = Some (f s t).
Proof.
  intros Hs Ht. cbn. unfold on_grids.
  exists (zip_with f x (map (fun _ => t) x)). split.
  - apply lookup_zip_with_Some. exists x, (map (fun _ => t) x).
    split; [reflexivity|]. split; apply list_lookup_fmap_Some; eauto.
  - apply lookup_zip_with_Some. exists s, t.
    split; [reflexivity|]. split; [exact Hs|].
    apply list_lookup_fmap_Some; eauto.
Qed.

(** With salinity on the y-axis the first (salinity) argument of the sigma
    function is taken from [y] and the second from [x]. *)
Lemma dens_grids_salt_on_y (f : Q -> Q -> Q) (x y : list Q) (i j : nat)
    (u v : Q) :
  x !! j = Some u -> y !! i = Some v ->
  let '(ss, tt_) := dens_grids false x y in
  exists row, on_grids f ss tt_ !! i = Some row /\ row !! j = Some (f v u).
Proof.
  intros Hu Hv. cbn. unfold on_grids.
  exists (zip_with f (map (fun _ => v) x) x). split.
  - apply lookup_zip_with_Some. exists (map (fun _ => v) x), x.
    split; [reflexivity|]. split; apply list_lookup_fmap_Some; eauto.
  - apply lookup_zip_with_Some. exists v, u.
    split; [reflexivity|]. split; [|exact Hu].
    apply list_lookup_fmap_Some; eauto.
Qed.

Lemma of_nat_to_nat_ge (c : Z) : (inject_Z c <= of_nat (Z.to_nat c))%Q.
Proof. unfold of_nat. rewrite <- Zle_Qle. lia. Qed.

(** For a positive step [np.arange] gives [start + i * step] for every [i]
    that keeps the value below [stop], and no other value. *)
Lemma arange_progression (start stop step : Q) :
  (0 < step)%Q ->
  exists l,
    arange start stop step = Ok l
    /\ (forall i v, l !! i = Some v ->
          v = (start + of_nat i * step)%Q /\ (v < stop)%Q)
    /\ (stop <= start + of_nat (length l) * step)%Q.
Proof.
  intros Hstep. unfold arange.
  assert (Hnz : Qeq_bool step 0 = false).
  { destruct (Qeq_bool step 0) eqn:E; [|reflexivity].
    apply Qeq_bool_eq in E. lra. }
  rewrite Hnz. set (q := ((stop - start) / step)%Q).
  assert (Hq : (q * step == stop - start)%Q).
  { unfold q. field. lra. }
  eexists. split; [reflexivity|]. split.
  - intros i v Hi. apply list_lookup_fmap_Some in Hi as (k & Hv & Hk).
    apply lookup_seq in Hk as [-> Hlt]. cbn in Hv. subst v.
    split; [reflexivity|].
    assert (Hi : (of_nat i < q)%Q).
    { apply Qle_lt_trans with (inject_Z (Qceiling q - 1)).
      - unfold of_nat. rewrite <- Zle_Qle. lia.
      - apply Qceiling_lt. }
    assert (Hm : (of_nat i * step < q * step)%Q)
      by now apply Qmult_lt_compat_r.
    lra.
  - rewrite length_map, length_seq.
    assert (Hn : (q <= of_nat (Z.to_nat (Qceiling q)))%Q).
    { apply Qle_trans with (inject_Z (Qceiling q)).
      - apply Qle_ceiling.
      - apply of_nat_to_nat_ge. }
    assert (Hm : (q * step <= of_nat (Z.to_nat (Qceiling q)) * step)%Q)
      by (apply Qmult_le_compat_r; lra).
    lra.
Qed.

(** The levels of the contours: for a positive [dens_interval] they are the
    values [floor(min) + i * dens_interval] below [ceil(max)]. *)
Lemma dens_levels_progression (sig : list (list Q)) (dens_interval lo hi : Q) :
  grid_min sig = Ok lo -> grid_max sig = Ok hi ->
  (0 < dens_interval)%Q ->
  exists levels,
    dens_levels sig dens_interval = Ok levels
    /\ (forall i v, levels !! i = Some v ->
          v = (inject_Z (Qfloor lo) + of_nat i * dens_interval)%Q
          /\ (v < inject_Z (Qceiling hi))%Q)
    /\ (inject_Z (Qceiling hi)
        <= inject_Z (Qfloor lo) + of_nat (length levels) * dens_interval)%Q.
Proof.
  intros Hlo Hhi Hstep. unfold dens_levels. rewrite Hlo, Hhi.
  apply arange_progression, Hstep.
Qed.

(** Once the name of the sigma function is accepted, the samples are taken
    and the levels computed, the first call recorded is the [contour] over
    [x], [y] and the grid of sigma values. *)
Lemma draw_dens_run (ax : option handle) (a : dens_args) (w : world)
    (x y levels : list Q) :
  existsb (String.eqb (da_sigma a)) sigma_names = true ->
  dens_axes_samples (target ax w) (da_density_grid a) (da_salt_on_x a)
    (da_slim a) (da_tlim a) w = (Ok (x, y), w) ->
  dens_levels
    (on_grids (gsw_sigma (da_sigma a))
       (fst (dens_grids (da_salt_on_x a) x y))
       (snd (dens_grids (da_salt_on_x a) x y)))
    (da_dens_interval a) = Ok levels ->
  let kw : kwargs :=
    da_contour_kwargs a
    ∪ (da_kwargs a
       ∪ {[ "levels" := Ndarray levels; "colors" := Val (VStr "0.4");
            "linestyles" := Val (VStr "--");
            "linewidths" := Val (VFloat 0.5) ]}) in
  exists rest,
    trace (snd (draw_dens_contours_teos10 gsw_sigma ax a w)) =
      (trace w
         ++ Contour (target ax w) x y
              (on_grids (gsw_sigma (da_sigma a))
                 (fst (dens_grids (da_salt_on_x a) x y))
                 (snd (dens_grids (da_salt_on_x a) x y))) kw :: rest)%list.
Proof.
  intros Hname Hxy Hlev. unfold draw_dens_contours_teos10.
  assert (Hax : or_gca ax w = (Ok (target ax w), w)) by now destruct ax.
  rewrite (bind_ok _ _ _ _ _ Hax), Hname. cbn [negb].
  rewrite (bind_ok _ _ _ _ _ Hxy).
  destruct (dens_grids (da_salt_on_x a) x y) as [ss tt_]. cbn [fst snd] in *.
  rewrite Hlev. unfold dict_update.
  match goal with
  | |- context [bind (lift (Ok levels)) ?k w] =>
      change (bind (lift (Ok levels)) k w) with (k levels w)
  end.
  cbv beta.
  match goal with
  | |- context [bind (emit_artist ?c) ?k w] =>
      change (bind (emit_artist c) k w)
        with (k (length (trace w)) (record c w));
      assert (Hk : emits (fun _ => True) (k (length (trace w))))
        by (cbv beta; repeat emits_step);
      destruct (Hk (record c w)) as (rest & Hrest & _);
      set (kk := k) in *
  end.
  exists rest. rewrite Hrest. cbn [record trace]. now rewrite <- app_assoc.
Qed.

(** ** tsdiagram *)

Lemma emits_after_scatter ax fig s color ts ddc dcb :
  emits not_scatter (after_scatter gsw_sigma ax fig s color ts ddc dcb).
Proof.
  unfold after_scatter. apply emits_bind; [|intros _; apply emits_bind].
  - destruct ddc; [apply emits_draw_dens | auto with emits].
  - destruct dcb; [|auto with emits].
    destruct color as [[]| | |]; auto with emits;
      apply emits_emit; exact I.
  - intros _. auto with emits.
Qed.

(** From the values [(s, t)] that reach the labelling step on, [tsdiagram]
    records the labels, one [scatter] of [(s, t)], and no other scatter. *)
Lemma tsdiagram_from_labels (a f : handle) (s t : list Q) (color size : pyobj)
    (ts : dens_args) (ddc dcb add_labels b : bool) (kw : kwargs) (w : world) :
  let skw : kwargs := kw ∪ {[ "s" := size; "c" := color ]} in
  exists rest,
    trace (snd (((if add_labels then
                    emit (SetXlabel a (salt_label b)) ;;;
                    emit (SetYlabel a (temp_label b))
                  else ret tt) ;;;
                 n <- emit_artist (Scatter a s t skw) ;;
                 after_scatter gsw_sigma a f n color ts ddc dcb) w))
    = (trace w ++ axis_labels a add_labels b ++ [Scatter a s t skw] ++ rest)%list
    /\ Forall not_scatter rest.
Proof.
  intros skw.
  set (w1 := fold_left (fun w c => record c w) (axis_labels a add_labels b) w).
  assert (H1 : (if add_labels then
                  emit (SetXlabel a (salt_label b)) ;;;
                  emit (SetYlabel a (temp_label b))
                else ret tt) w = (Ok tt, w1)).
  { subst w1. unfold axis_labels. now destruct add_labels. }
  assert (Ht1 : trace w1 = (trace w ++ axis_labels a add_labels b)%list).
  { subst w1. unfold axis_labels. destruct add_labels; cbn.
    - now rewrite <- app_assoc.
    - now rewrite app_nil_r. }
  rewrite (bind_ok _ _ _ _ _ H1).
  unfold bind at 1. cbn [emit_artist].
  destruct (emits_after_scatter a f (length (trace w1)) color ts ddc dcb
              (record (Scatter a s t skw) w1)) as (rest & Hrest & HP).
  exists rest. split; [|exact HP].
  rewrite Hrest. cbn [record trace]. rewrite Ht1.
  now rewrite <- !app_assoc.
Qed.

(** C5: with [convert_teos10] true and [lon], [lat], [pressure] given,
    the one [scatter] call of [tsdiagram] receives
    [SA = gsw.SA_from_SP(salt, pressure, lon, lat)] and
    [gsw.CT_from_pt(SA, temp)]; with [convert_teos10] false it receives
    [salt] and [temp] as they were passed.  Only the axis labels, when asked
    for, are recorded before it. *)
Theorem tsdiagram_scatter_args (salt temp : list Q) (color size : pyobj)
    (ts_kwargs : dens_args) (ax fig : option handle)
    (draw_density_contours draw_cbar add_labels : bool) (kw : kwargs)
    (w : world) :
  let a := target ax w in
  let skw : kwargs := kw ∪ {[ "s" := size; "c" := color ]} in
  (forall lon lat pressure,
     let SA := SA_from_SP salt pressure lon lat in
     let CT := CT_from_pt SA temp in
     exists rest,
       trace (snd (tsdiagram gsw_sigma SA_from_SP CT_from_pt salt temp color
                     size (Some lon) (Some lat) (Some pressure) true ts_kwargs
                     ax fig draw_density_contours draw_cbar add_labels kw w))
       = (trace w ++ axis_labels a add_labels true
            ++ [Scatter a SA CT skw] ++ rest)%list
       /\ Forall not_scatter rest)
  /\ (forall lon lat pressure,
       exists rest,
         trace (snd (tsdiagram gsw_sigma SA_from_SP CT_from_pt salt temp color
                       size lon lat pressure false ts_kwargs
                       ax fig draw_density_contours draw_cbar add_labels kw w))
         = (trace w ++ axis_labels a add_labels false
              ++ [Scatter a salt temp skw] ++ rest)%list
         /\ Forall not_scatter rest).
Proof.
  intros a skw.
  assert (Hax : or_gca ax w = (Ok a, w)) by now destruct ax.
  set (f := match fig with None => gcf w | Some f => f end).
  assert (Hfig : (match fig with None => plt_gcf | Some f => ret f end) w
                 = (Ok f, w)) by now destruct fig.
  split.
  - intros lon lat pressure SA CT. unfold tsdiagram.
    rewrite (bind_ok _ _ _ _ _ Hax), (bind_ok _ _ _ _ _ Hfig).
    unfold bind at 1. cbn [ret].
    apply (tsdiagram_from_labels a f SA CT color size ts_kwargs
             draw_density_contours draw_cbar add_labels true kw w).
  - intros lon lat pressure. unfold tsdiagram.
    rewrite (bind_ok _ _ _ _ _ Hax), (bind_ok _ _ _ _ _ Hfig).
    unfold bind at 1. cbn [ret].
    apply (tsdiagram_from_labels a f salt temp color size ts_kwargs
             draw_density_contours draw_cbar add_labels false kw w).
Qed.

(** C10: with [convert_teos10] true and one of [lon], [lat], [pressure]
    missing, [tsdiagram] raises ValueError in the plotting state it was
    called in: no label is set and nothing is drawn. *)
Theorem tsdiagram_missing_position (salt temp : list Q) (color size : pyobj)
    (lon lat pressure : option (list Q)) (ts_kwargs : dens_args)
    (ax fig : option handle)
    (draw_density_contours draw_cbar add_labels : bool) (kw : kwargs)
    (w : world) :
  lon = None \/ lat = None \/ pressure = None ->
  tsdiagram gsw_sigma SA_from_SP CT_from_pt salt temp color size
    lon lat pressure true ts_kwargs ax fig
    draw_density_contours draw_cbar add_labels kw w
  = (Raise ValueError, w).
Proof.
  intros Hnone. unfold tsdiagram.
  assert (Hax : or_gca ax w = (Ok (target ax w), w)) by now destruct ax.
  set (f := match fig with None => gcf w | Some f => f end).
  assert (Hfig : (match fig with None => plt_gcf | Some f => ret f end) w
                 = (Ok f, w)) by now destruct fig.
  rewrite (bind_ok _ _ _ _ _ Hax), (bind_ok _ _ _ _ _ Hfig).
  apply bind_raise.
  destruct lon, lat, pressure; try reflexivity.
  destruct Hnone as [H|[H|H]]; discriminate.
Qed.

End LibraryFacts.

(** ** The density grid when salinity is on the y-axis *)

(** C4: [draw_dens_contours_teos10] called with [salt_on_x=False],
    [slim=(30, 40)], [tlim=(0, 20)] and [density_grid=2].  The sigma
    function, whose arguments are (salinity, temperature), is evaluated at
    salinities 0 and 20, the temperature limits, and temperatures 30 and
    40, the salinity limits; the contour is drawn with the salinity samples
    as its x coordinates although x is the temperature axis. *)
Theorem dens_contours_salt_on_y (gsw_sigma : string -> Q -> Q -> Q) :
  let w := mkWorld ∅ 0 0 [] in
  let a := mkDensArgs "sigma0" false 2 1 false
             (Some (30, 40)%Q) (Some (0, 20)%Q) ∅ ∅ ∅ in
  let f := gsw_sigma "sigma0" in
  exists kw rest,
    trace (snd (draw_dens_contours_teos10 gsw_sigma None a w)) =
      Contour 0 [30; 40]%Q [0; 20]%Q
        [[f 0 30; f 0 40]; [f 20 30; f 20 40]]%Q kw :: rest.
Proof.
  intros w a f.
  edestruct (draw_dens_run gsw_sigma None a w [30; 40]%Q [0; 20]%Q)
    as (rest & Htrace); [reflexivity | reflexivity | reflexivity |].
  eexists _, rest. exact Htrace.
Qed.

(** ** The properties at concrete calls *)

(** [center_lim] on axes with x limits (-3, 5) and y limits (2, 8): the
    limits become (-5, 5) and (-8, 8); and an unknown [which]. *)
Lemma center_lim_spec_witness :
  let w := mkWorld {[ 0%nat := mkAxes (-3, 5)%Q (2, 8)%Q ]} 0 0 [] in
  (exists w', center_lim 0 "xy" w = (Ok tt, w')
              /\ get_axes 0 w' = mkAxes (-5, 5)%Q (-8, 8)%Q)
  /\ center_lim 0 "z" w = (Raise ValueError, w).
Proof.
  intros w.
  destruct (center_lim_spec 0 w)
    as (mx & my & (Hmx & Hx1 & Hx2) & (Hmy & Hy1 & Hy2) & _ & _ & Hxy & Herr).
  split.
  - destruct (Hxy "xy" (or_introl eq_refl)) as (w' & Hrun & Hlim & _).
    exists w'. split; [exact Hrun|]. rewrite Hlim.
    destruct Hmx as [-> | ->]; [exfalso; apply Hx2; reflexivity|].
    destruct Hmy as [-> | ->]; [exfalso; apply Hy2; reflexivity|].
    reflexivity.
  - apply Herr; discriminate.
Defined.

(** [depth_logscale(ax)] with the default ticks. *)
Lemma depth_logscale_spec_witness :
  exists w' labels,
    depth_logscale 0 depth_logscale_yscale None (mkWorld ∅ 0 0 []) = (Ok tt, w')
    /\ labels = ["0"; "100"; "250"; "500"; "1000"; "2500"; "5000"]
    /\ (exists l, labels !! 2%nat = Some l /\ int_of_str l = Some 250%Z).
Proof.
  destruct (depth_logscale_spec 0 depth_logscale_yscale None (mkWorld ∅ 0 0 []))
    as (w' & labels & Hrun & _ & _ & Hlab & Hdef & _).
  exists w', labels. split; [exact Hrun|]. split; [exact (Hdef eq_refl)|].
  destruct (Hlab 2%nat 250%Z eq_refl) as (l & Hl & _ & Hint).
  exists l. split; assumption.
Defined.

(** A float box from longitude 170 across the antimeridian to -170. *)
Lemma split_detected_iff_witness :
  truthy (VStr "True") = true
  /\ (fst (split_flags_nd (VStr "True") (FloatArr [170; -170; 10; 20]%Q)) = true
      <-> (-170 < 170)%Q).
Proof.
  split; [reflexivity|].
  destruct (split_detected_iff (VStr "True") (FloatArr [170; -170; 10; 20]%Q)
              eq_refl) as (_ & _ & _ & H & _).
  exact H.
Defined.

Lemma box_plot_draws_witness :
  truthy (VStr "True") = true
  /\ diff_is_negative (FloatArr [170; -170; 10; 20]%Q) 0 1 = true
  /\ diff_is_negative (FloatArr [170; -170; 10; 20]%Q) 2 3 = false
  /\ box_plot_nd (FloatArr [170; -170; 10; 20]%Q) None (VStr "True") ∅
       (mkWorld ∅ 0 0 []) =
       (Ok tt,
        record (Plot 0 [0; -170; -170; 0; 0]%Q [10; 10; 20; 20; 10]%Q ∅)
          (record (Plot 0 [1; 170; 170; 1; 1]%Q [10; 10; 20; 20; 10]%Q ∅)
             (mkWorld ∅ 0 0 []))).
Proof.
  split; [reflexivity|]. split; [reflexivity|]. split; [reflexivity|].
  exact (proj1 (box_plot_draws (FloatArr [170; -170; 10; 20]%Q)
                  170 (-170) 10 20 None (VStr "True") ∅
                  (mkWorld ∅ 0 0 []) eq_refl) eq_refl).
Defined.

Lemma box_plot_length_check_witness :
  length [1; 2; 3]%Q <> 4%nat
  /\ box_plot [1; 2; 3]%Q None (VStr "True") ∅ (mkWorld ∅ 0 0 []) =
       (Raise RuntimeError, mkWorld ∅ 0 0 []).
Proof.
  split; [discriminate|].
  apply (proj1 (box_plot_length_check [1; 2; 3]%Q None (VStr "True") ∅
                  (mkWorld ∅ 0 0 []))).
  discriminate.
Defined.

Lemma split_detection_truthiness_witness :
  truthy (VBool false) = false
  /\ truthy (VStr "False") = true
  /\ split_flags_nd (VStr "False") (FloatArr [170; -170; 10; 20]%Q)
     = (true, false)
  /\ box_plot_nd (FloatArr [170; -170; 10; 20]%Q) None (VBool false) ∅
       (mkWorld ∅ 0 0 []) =
       (Ok tt,
        record (Plot 0 [170; 170; -170; -170; 170]%Q [10; 20; 20; 10; 10]%Q ∅)
          (mkWorld ∅ 0 0 [])).
Proof.
  split; [reflexivity|]. split; [reflexivity|].
  destruct (split_detection_truthiness (FloatArr [170; -170; 10; 20]%Q)
              170 (-170) 10 20 None ∅ (mkWorld ∅ 0 0 []) eq_refl)
    as (_ & _ & _ & _ & Htruthy & Hfalsy & _).
  split.
  - exact (proj1 (Htruthy (VStr "False") eq_refl)).
  - exact (proj2 (Hfalsy (VBool false) eq_refl)).
Defined.

Lemma plot_line_shaded_std_spec_witness :
  exists lo hi : list Q,
    plot_line_shaded_std (fun _ _ _ => Val (VStr "C0")) [0; 1]%Q [2; 3]%Q
       [1; 1]%Q false None ∅ ∅ (mkWorld ∅ 0 0 []) =
       (Ok (mkLine (Val (VStr "C0"))),
        record (FillBetweenx 0 [0; 1]%Q lo hi
                  (∅ ∪ {[ "color" := Val (VStr "C0");
                          "alpha" := Val (VFloat 0.35) ]}))
          (record (Plot 0 [2; 3]%Q [0; 1]%Q ∅) (mkWorld ∅ 0 0 [])))
    /\ lo !! 1%nat = Some (3 - 1)%Q /\ hi !! 1%nat = Some (3 + 1)%Q.
Proof.
  destruct (plot_line_shaded_std_spec (fun _ _ _ => Val (VStr "C0"))
              [0; 1]%Q [2; 3]%Q [1; 1]%Q false None ∅ ∅
              (mkWorld ∅ 0 0 []) eq_refl eq_refl)
    as (lo & hi & Hrun & _ & _ & Hband).
  exists lo, hi. split; [exact Hrun|].
  exact (Hband 1%nat 3%Q 1%Q eq_refl eq_refl).
Defined.

(** Three values with two deviations: the subtraction raises after the
    line has been plotted, and no band is drawn. *)
Lemma plot_line_shaded_std_spec_counterexample :
  plot_line_shaded_std (fun _ _ _ => Val (VStr "C0")) [0; 1; 2]%Q [1; 2; 3]%Q
    [1; 1]%Q true None ∅ ∅ (mkWorld ∅ 0 0 [])
  = (Raise ValueError,
     record (Plot 0 [0; 1; 2]%Q [1; 2; 3]%Q ∅) (mkWorld ∅ 0 0 [])).
Proof.
  unfold plot_line_shaded_std, dict_update.
  rewrite (right_id_L ∅ (∪) (∅ : kwargs)). reflexivity.
Qed.

Lemma tsdiagram_missing_position_witness :
  tsdiagram (fun _ s _ => s) (fun sp _ _ _ => sp) (fun _ pt => pt)
    [35]%Q [10]%Q (Val VNone) (Val VNone) None (Some [0]%Q) (Some [0]%Q) true
    dens_defaults None None true true true ∅ (mkWorld ∅ 0 0 [])
  = (Raise ValueError, mkWorld ∅ 0 0 []).
Proof.
  apply (tsdiagram_missing_position (fun _ s _ => s) (fun sp _ _ _ => sp)
           (fun _ pt => pt)).
  left. reflexivity.
Defined.

(** * Further properties of the helpers *)

(** ** center_lim *)

Lemma Qabs_opp_abs (c : Q) : Qabs (- Qabs c) = Qabs c.
Proof. destruct c as [[|p|p] d]; reflexivity. Qed.

Lemma Qabs_abs (c : Q) : Qabs (Qabs c) = Qabs c.
Proof. destruct c as [[|p|p] d]; reflexivity. Qed.

Lemma Qmax_same (m : Q) : Qmax m m = m.
Proof. unfold Qmax, GenericMinMax.gmax. now destruct (m ?= m)%Q. Qed.

(** Centred limits are a fixed point of [abs(lim).max()]. *)
Lemma abs_max_centred (lim : Q * Q) :
  abs_max ((- abs_max lim)%Q, abs_max lim) = abs_max lim.
Proof.
  destruct (abs_max_attained lim) as [H|H]; rewrite H; unfold abs_max;
    cbn [fst snd]; now rewrite Qabs_opp_abs, Qabs_abs, Qmax_same.
Qed.

Lemma center_lim_cases ax which w w1 :
  center_lim ax which w = (Ok tt, w1) ->
  center_lim ax which = center_lim_y ax
  \/ center_lim ax which = center_lim_x ax
  \/ center_lim ax which = (center_lim_x ax ;;; center_lim_y ax).
Proof.
  unfold center_lim.
  destruct (String.eqb which "y"); [now left|].
  destruct (String.eqb which "x"); [now right; left|].
  destruct (existsb (String.eqb which) ["xy"; "yx"]); [now right; right|].
  discriminate.
Qed.

Lemma center_lim_xy_run ax w :
  let a := get_axes ax w in
  let mx := abs_max (xlim a) in
  let my := abs_max (ylim a) in
  (center_lim_x ax ;;; center_lim_y ax) w =
    (Ok tt,
     record (SetYlim ax ((- my)%Q, my))
       (put_axes ax (mkAxes ((- mx)%Q, mx) ((- my)%Q, my))
          (record (SetXlim ax ((- mx)%Q, mx))
             (put_axes ax (mkAxes ((- mx)%Q, mx) (ylim a)) w)))).
Proof.
  cbn zeta. erewrite bind_ok by apply center_lim_x_run.
  rewrite center_lim_y_run. now axes_simpl.
Qed.

(** A second [center_lim] with the same [which] changes no limit of any
    axes: the limits it writes are the ones the first call left. *)
Theorem center_lim_idempotent (ax : handle) (which : string) (w w1 : world) :
  center_lim ax which w = (Ok tt, w1) ->
  exists w2,
    center_lim ax which w1 = (Ok tt, w2)
    /\ forall ax', get_axes ax' w2 = get_axes ax' w1.
Proof.
  intros Hrun. destruct (center_lim_cases _ _ _ _ Hrun) as [Hc|[Hc|Hc]];
    rewrite Hc in *; clear Hc.
  - rewrite center_lim_y_run in Hrun. injection Hrun as <-.
    eexists. split; [apply center_lim_y_run|].
    intros ax'. axes_simpl. cbn [xlim ylim]. rewrite abs_max_centred.
    destruct (decide (ax = ax')) as [->|Hne].
    + now axes_simpl.
    + rewrite !get_put_axes_ne by assumption. axes_simpl.
      now rewrite get_put_axes_ne by assumption.
  - rewrite center_lim_x_run in Hrun. injection Hrun as <-.
    eexists. split; [apply center_lim_x_run|].
    intros ax'. axes_simpl. cbn [xlim ylim]. rewrite abs_max_centred.
    destruct (decide (ax = ax')) as [->|Hne].
    + now axes_simpl.
    + rewrite !get_put_axes_ne by assumption. axes_simpl.
      now rewrite get_put_axes_ne by assumption.
  - rewrite center_lim_xy_run in Hrun. injection Hrun as <-.
    eexists. split; [apply center_lim_xy_run|].
    intros ax'. axes_simpl. cbn [xlim ylim]. rewrite !abs_max_centred.
    destruct (decide (ax = ax')) as [->|Hne].
    + now axes_simpl.
    + repeat (rewrite get_put_axes_ne by assumption; axes_simpl).
      reflexivity.
Qed.

(** The limits [center_lim] writes are [(-m, m)] with both limits it read
    inside [[-m, m]] and one of them of absolute value [m], so no narrower
    symmetric pair encloses them; ['x'] leaves the y limits as they were
    and ['y'] the x limits. *)
Theorem center_lim_encloses (ax : handle) (which : string) (w w1 : world) :
  center_lim ax which w = (Ok tt, w1) ->
  let old := get_axes ax w in
  let new := get_axes ax w1 in
  exists mx my : Q,
    ((- mx <= fst (xlim old) <= mx)%Q /\ (- mx <= snd (xlim old) <= mx)%Q
     /\ (Qabs (fst (xlim old)) = mx \/ Qabs (snd (xlim old)) = mx))
    /\ ((- my <= fst (ylim old) <= my)%Q /\ (- my <= snd (ylim old) <= my)%Q
        /\ (Qabs (fst (ylim old)) = my \/ Qabs (snd (ylim old)) = my))
    /\ ((which = "y" /\ xlim new = xlim old)
        \/ (which <> "y" /\ xlim new = ((- mx)%Q, mx)))
    /\ ((which = "x" /\ ylim new = ylim old)
        \/ (which <> "x" /\ ylim new = ((- my)%Q, my))).
Proof.
  intros Hrun old new.
  exists (abs_max (xlim old)), (abs_max (ylim old)).
  assert (Henc : forall lim,
            (- abs_max lim <= fst lim <= abs_max lim)%Q
            /\ (- abs_max lim <= snd lim <= abs_max lim)%Q
            /\ (Qabs (fst lim) = abs_max lim \/ Qabs (snd lim) = abs_max lim)).
  { intros lim. destruct (abs_max_bounds lim) as [H1 H2].
    apply Qabs_Qle_condition in H1, H2.
    split; [exact H1|]. split; [exact H2|].
    destruct (abs_max_attained lim) as [H|H]; [left|right]; now symmetry. }
  split; [apply Henc|]. split; [apply Henc|].
  subst new. unfold center_lim in Hrun.
  destruct (String.eqb_spec which "y") as [->|Hy].
  - rewrite center_lim_y_run in Hrun. injection Hrun as <-. split.
    + left. split; [reflexivity|]. now axes_simpl.
    + right. split; [discriminate|]. now axes_simpl.
  - destruct (String.eqb_spec which "x") as [->|Hx].
    + rewrite center_lim_x_run in Hrun. injection Hrun as <-. split.
      * right. split; [discriminate|]. now axes_simpl.
      * left. split; [reflexivity|]. now axes_simpl.
    + destruct (existsb _ _); [|discriminate].
      rewrite center_lim_xy_run in Hrun. injection Hrun as <-. split.
      * right. split; [assumption|]. now axes_simpl.
      * right. split; [assumption|]. now axes_simpl.
Qed.

(** ** depth_logscale *)

Lemma depth_logscale_run (ax : handle) (yscale : Q) (ticks : option (list Z))
    (w : world) :
  let t := match ticks with None => depth_logscale_ticks | Some t => t end in
  let a := get_axes ax w in
  depth_logscale ax yscale ticks w =
    (Ok tt,
     record (InvertYaxis ax)
       (put_axes ax (mkAxes (xlim a) (snd (ylim a), fst (ylim a)))
          (record (SetYticklabels ax (map str t))
             (record (SetYticks ax t)
                (record (SetYscale ax "symlog" yscale) w))))).
Proof. reflexivity. Qed.

(** Distinct ticks get distinct labels, and there are as many labels as
    ticks. *)
Theorem depth_logscale_labels_distinct (ax : handle) (yscale : Q)
    (ticks : list Z) (w : world) :
  NoDup ticks ->
  exists labels,
    In (SetYticklabels ax labels)
       (trace (snd (depth_logscale ax yscale (Some ticks) w)))
    /\ length labels = length ticks
    /\ NoDup labels.
Proof.
  intros Hnd. exists (map str ticks). split; [|split].
  - rewrite depth_logscale_run. cbn. apply in_or_app. left.
    apply in_or_app. right. now left.
  - apply length_map.
  - assert (Hinj : Inj eq eq str) by (intros m n; apply str_inj).
    now apply (NoDup_fmap_2 str).
Qed.

(** ** plot_line_shaded_std *)

Lemma np_binop_mismatch f (a b : list Q) :
  length a <> length b -> length a <> 1%nat -> length b <> 1%nat ->
  np_binop f a b = Raise ValueError.
Proof.
  intros Hab Ha Hb. unfold np_binop.
  apply Nat.eqb_neq in Hab. rewrite Hab.
  destruct a as [|u [|u' a]], b as [|v [|v' b]]; cbn in *; congruence.
Qed.

Lemma dict_update_lookup (d e : kwargs) (k : string) :
  dict_update d e !! k =
    match e !! k with
    | Some v => Some v
    | None => d !! k
    end.
Proof.
  unfold dict_update. rewrite lookup_union.
  now destruct (e !! k), (d !! k).
Qed.

Section ShadedStd.

Variable pick_color : world -> handle -> kwargs -> pyobj.

Lemma plot_line_shaded_std_line (x y std_y : list Q) (horizontal : bool)
    (ax : option handle) (line_kwargs fill_kwargs : kwargs) (w : world) :
  let a := target ax w in
  let w1 := record (if horizontal then Plot a x y line_kwargs
                    else Plot a y x line_kwargs) w in
  let p := mkLine (pick_color w a line_kwargs) in
  plot_line_shaded_std pick_color x y std_y horizontal ax line_kwargs
    fill_kwargs w =
  bind (lift (np_sub y std_y)) (fun lo =>
    bind (lift (np_add y std_y)) (fun hi =>
      bind (if horizontal
            then emit (FillBetween a x lo hi
                         (dict_update
                            ({[ "color" := get_color p;
                                "alpha" := Val (VFloat 0.35) ]} : kwargs)
                            fill_kwargs))
            else emit (FillBetweenx a x lo hi
                         (dict_update
                            ({[ "color" := get_color p;
                                "alpha" := Val (VFloat 0.35) ]} : kwargs)
                            fill_kwargs)))
        (fun _ => ret p))) w1.
Proof.
  cbn zeta. unfold plot_line_shaded_std, dict_update.
  rewrite (right_id_L ∅ (∪) line_kwargs).
  assert (Hax : or_gca ax w = (Ok (target ax w), w)) by now destruct ax.
  rewrite (bind_ok _ _ _ _ _ Hax).
  destruct horizontal; reflexivity.
Qed.

(** When [y] and [std_y] cannot be combined (different lengths, neither of
    length one) the call raises ValueError, but only after the line has been
    drawn: the plot call stays recorded and no band is filled. *)
Theorem plot_line_shaded_std_shape_error (x y std_y : list Q)
    (horizontal : bool) (ax : option handle) (line_kwargs fill_kwargs : kwargs)
    (w : world) :
  length y <> length std_y -> length y <> 1%nat -> length std_y <> 1%nat ->
  plot_line_shaded_std pick_color x y std_y horizontal ax line_kwargs
    fill_kwargs w =
  (Raise ValueError,
   record (if horizontal then Plot (target ax w) x y line_kwargs
           else Plot (target ax w) y x line_kwargs) w).
Proof.
  intros H1 H2 H3. rewrite plot_line_shaded_std_line. cbn zeta.
  unfold np_sub. now rewrite (np_binop_mismatch _ _ _ H1 H2 H3).
Qed.

(** For [x], [y] and [std_y] of one length and deviations that are not
    negative, the band contains the line: at every index the lower
    boundary is at most [y] and the upper boundary at least [y]. *)
Theorem plot_line_shaded_std_band (x y std_y : list Q) (horizontal : bool)
    (ax : option handle) (line_kwargs fill_kwargs : kwargs) (w : world) :
  length x = length y -> length std_y = length y ->
  Forall (fun s => (0 <= s)%Q) std_y ->
  exists lo hi kw,
    trace (snd (plot_line_shaded_std pick_color x y std_y horizontal ax
                  line_kwargs fill_kwargs w))
    = (trace w
         ++ [if horizontal then Plot (target ax w) x y line_kwargs
             else Plot (target ax w) y x line_kwargs;
             if horizontal then FillBetween (target ax w) x lo hi kw
             else FillBetweenx (target ax w) x lo hi kw])%list
    /\ length lo = length y /\ length hi = length y
    /\ forall i yi, y !! i = Some yi ->
         exists l h, lo !! i = Some l /\ hi !! i = Some h
                     /\ (l <= yi <= h)%Q.
Proof.
  intros _ Hlen Hpos. symmetry in Hlen.
  exists (zip_with Qminus y std_y), (zip_with Qplus y std_y).
  eexists. split; [|split; [|split]].
  - rewrite plot_line_shaded_std_line. cbn zeta. unfold np_sub, np_add.
    rewrite !(np_binop_same_shape _ _ _ Hlen).
    destruct horizontal; cbn; rewrite <- app_assoc; reflexivity.
  - rewrite length_zip_with. lia.
  - rewrite length_zip_with. lia.
  - intros i yi Hy.
    destruct (lookup_lt_is_Some_2 std_y i) as [si Hs].
    { rewrite <- Hlen. now apply lookup_lt_Some in Hy. }
    assert (Hsi : (0 <= si)%Q).
    { rewrite Forall_forall in Hpos. apply Hpos.
      apply list_elem_of_lookup. eauto. }
    exists (yi - si)%Q, (yi + si)%Q.
    split; [apply lookup_zip_with_Some; eauto|].
    split; [apply lookup_zip_with_Some; eauto|].
    split; lra.
Qed.

(** The band takes the colour of the line just drawn and alpha 0.35 unless
    [fill_kwargs] names them, and every other entry of [fill_kwargs] is
    passed on as it is. *)
Theorem plot_line_shaded_std_fill_kwargs (x y std_y : list Q)
    (horizontal : bool) (ax : option handle) (line_kwargs fill_kwargs : kwargs)
    (w : world) (lo hi : list Q) :
  np_sub y std_y = Ok lo -> np_add y std_y = Ok hi ->
  exists kw,
    last (trace (snd (plot_line_shaded_std pick_color x y std_y horizontal ax
                        line_kwargs fill_kwargs w)))
    = Some (if horizontal then FillBetween (target ax w) x lo hi kw
            else FillBetweenx (target ax w) x lo hi kw)
    /\ kw !! "color" =
         Some (default (pick_color w (target ax w) line_kwargs)
                 (fill_kwargs !! "color"))
    /\ kw !! "alpha" =
         Some (default (Val (VFloat 0.35)) (fill_kwargs !! "alpha"))
    /\ forall k, k <> "color" -> k <> "alpha" -> kw !! k = fill_kwargs !! k.
Proof.
  intros Hlo Hhi.
  exists (dict_update
            ({[ "color" := pick_color w (target ax w) line_kwargs;
                "alpha" := Val (VFloat 0.35) ]} : kwargs) fill_kwargs).
  split; [|split; [|split]].
  - rewrite plot_line_shaded_std_line. cbn zeta. rewrite Hlo, Hhi.
    destruct horizontal; unfold bind, lift, emit, ret;
      cbn [snd record trace get_color]; apply last_snoc.
  - rewrite dict_update_lookup. cbn [get_color].
    destruct (fill_kwargs !! "color"); [reflexivity|].
    now rewrite lookup_insert_eq.
  - rewrite dict_update_lookup.
    destruct (fill_kwargs !! "alpha"); [reflexivity|].
    rewrite lookup_insert_ne by discriminate.
    now rewrite lookup_singleton_eq.
  - intros k Hc Ha. rewrite dict_update_lookup.
    destruct (fill_kwargs !! k); [reflexivity|].
    rewrite lookup_insert_ne by congruence.
    now rewrite lookup_singleton_ne by congruence.
Qed.

End ShadedStd.

(** ** box_plot, dict2box and box_plot_dict *)

Lemma record_all (cs : list call) (w : world) :
  axs (fold_left (fun w c => record c w) cs w) = axs w
  /\ trace (fold_left (fun w c => record c w) cs w) = (trace w ++ cs)%list.
Proof.
  revert w. induction cs as [|c cs IH]; intros w; cbn [fold_left].
  - now rewrite app_nil_r.
  - destruct (IH (record c w)) as [Ha Ht]. rewrite Ha, Ht. cbn.
    now rewrite <- app_assoc.
Qed.

(** A box whose four coordinates lie within the limits of the current axes
    is drawn within those limits, wrapped or not: every call recorded is a
    [plot] on the axes chosen, with the keyword arguments given, of as many
    x as y coordinates, none outside the limits. *)
Theorem box_plot_within_view (x1 x2 y1 y2 : Q) (ax : option handle)
    (sd : value) (kw : kwargs) (w : world) :
  let xl := xlim (get_axes (gca w) w) in
  let yl := ylim (get_axes (gca w) w) in
  (fst xl <= x1 <= snd xl)%Q -> (fst xl <= x2 <= snd xl)%Q ->
  (fst yl <= y1 <= snd yl)%Q -> (fst yl <= y2 <= snd yl)%Q ->
  exists lines,
    trace (snd (box_plot [x1; x2; y1; y2] ax sd kw w)) = (trace w ++ lines)%list
    /\ Forall (line_in_view (target ax w) kw xl yl) lines.
Proof.
  intros xl yl Hx1 Hx2 Hy1 Hy2.
  rewrite (box_plot_run [x1; x2; y1; y2] ax sd kw w eq_refl). cbn [snd].
  fold xl yl. eexists. split; [apply record_all|].
  assert (Hxl : (fst xl <= fst xl <= snd xl)%Q) by (split; lra).
  assert (Hxr : (fst xl <= snd xl <= snd xl)%Q) by (split; lra).
  assert (Hyb : (fst yl <= fst yl <= snd yl)%Q) by (split; lra).
  assert (Hyt : (fst yl <= snd yl <= snd yl)%Q) by (split; lra).
  unfold box_lines, item. cbn [nth].
  destruct (fst (split_flags sd _)), (snd (split_flags sd _)); cbn [andb negb];
    repeat (apply Forall_cons_2;
            [eexists _, _; split; [reflexivity|]; split; [reflexivity|];
             split; repeat (apply Forall_cons_2; [assumption|]); constructor|]);
    constructor.
Qed.

(** [dict2box] gives the four bounds, x first, when both dimensions are in
    the dict, and raises KeyError when one is missing; what it gives always
    has length 4. *)
Theorem dict2box_spec (di : gmap string slice) (xdim ydim : string) :
  (forall sx sy, di !! xdim = Some sx -> di !! ydim = Some sy ->
     dict2box di xdim ydim = Ok [start sx; stop sx; start sy; stop sy])
  /\ (di !! xdim = None \/ di !! ydim = None ->
      dict2box di xdim ydim = Raise KeyError)
  /\ (forall box, dict2box di xdim ydim = Ok box -> length box = 4%nat).
Proof.
  unfold dict2box, getitem. split; [|split].
  - intros sx sy -> ->. reflexivity.
  - intros [H|H]; rewrite H; [reflexivity|]. now destruct (di !! xdim).
  - intros box. destruct (di !! xdim); [|discriminate].
    destruct (di !! ydim); [|discriminate]. now intros [= <-].
Qed.

(** Storing two slices under different names and reading the box back
    gives their bounds. *)
Theorem dict2box_insert (di : gmap string slice) (xdim ydim : string)
    (a b c d : Q) :
  xdim <> ydim ->
  dict2box (<[xdim := mkSlice a b]> (<[ydim := mkSlice c d]> di)) xdim ydim
  = Ok [a; b; c; d].
Proof.
  intros Hne. unfold dict2box, getitem.
  rewrite lookup_insert_eq. rewrite lookup_insert_ne by assumption.
  now rewrite lookup_insert_eq.
Qed.

(** [box_plot_dict] is [box_plot] on the bounds of the two slices; it never
    raises RuntimeError, the box always having four elements; and a missing
    dimension raises KeyError with nothing drawn. *)
Theorem box_plot_dict_spec (di : gmap string slice) (xdim ydim : string)
    (ax : option handle) (split_detection : option value) (kw : kwargs)
    (w : world) :
  let sd := match split_detection with
            | None => VStr "True"
            | Some sd => sd
            end in
  (forall sx sy, di !! xdim = Some sx -> di !! ydim = Some sy ->
     box_plot_dict di xdim ydim ax split_detection kw w
     = box_plot [start sx; stop sx; start sy; stop sy] ax sd kw w
     /\ fst (box_plot_dict di xdim ydim ax split_detection kw w) = Ok tt)
  /\ (di !! xdim = None \/ di !! ydim = None ->
      box_plot_dict di xdim ydim ax split_detection kw w = (Raise KeyError, w))
  /\ fst (box_plot_dict di xdim ydim ax split_detection kw w)
     <> Raise RuntimeError.
Proof.
  intros sd.
  assert (Hok : forall sx sy, di !! xdim = Some sx -> di !! ydim = Some sy ->
            box_plot_dict di xdim ydim ax split_detection kw w
            = box_plot [start sx; stop sx; start sy; stop sy] ax sd kw w
            /\ fst (box_plot_dict di xdim ydim ax split_detection kw w) = Ok tt).
  { intros sx sy Hx Hy. unfold box_plot_dict, dict2box, getitem.
    rewrite Hx, Hy.
    assert (Heq : forall k : list Q -> M unit,
              bind (lift (Ok [start sx; stop sx; start sy; stop sy])) k w
              = k [start sx; stop sx; start sy; stop sy] w) by reflexivity.
    rewrite Heq. split; [reflexivity|].
    now rewrite (box_plot_run [start sx; stop sx; start sy; stop sy]
                   ax _ kw w eq_refl). }
  assert (Herr : di !! xdim = None \/ di !! ydim = None ->
            box_plot_dict di xdim ydim ax split_detection kw w
            = (Raise KeyError, w)).
  { intros H. unfold box_plot_dict, dict2box, getitem.
    destruct H as [H|H]; rewrite H; [reflexivity|].
    now destruct (di !! xdim). }
  split; [exact Hok|]. split; [exact Herr|].
  destruct (di !! xdim) as [sx|] eqn:Hx.
  - destruct (di !! ydim) as [sy|] eqn:Hy.
    + destruct (Hok sx sy eq_refl eq_refl) as [_ ->]. discriminate.
    + rewrite Herr by now right. discriminate.
  - rewrite Herr by now left. discriminate.
Qed.

(** ** draw_dens_contours_teos10 *)

Lemma linspace_length (a b : Q) (n : nat) : length (linspace a b n) = n.
Proof.
  unfold linspace. destruct (1 <? n)%nat.
  - now rewrite length_insert, length_map, length_seq.
  - now rewrite length_map, length_seq.
Qed.

Lemma dens_axes_samples_run ax n salt_on_x slim tlim w :
  dens_axes_samples ax n salt_on_x slim tlim w =
    (Ok (linspace (fst (dens_slim ax salt_on_x slim w))
           (snd (dens_slim ax salt_on_x slim w)) n,
         linspace (fst (dens_tlim ax salt_on_x tlim w))
           (snd (dens_tlim ax salt_on_x tlim w)) n), w).
Proof.
  unfold dens_axes_samples, dens_slim, dens_tlim.
  destruct salt_on_x, slim, tlim; reflexivity.
Qed.

Lemma sigma_names_spec (s : string) :
  existsb (String.eqb s) sigma_names = true
  <-> s = "sigma0" \/ s = "sigma1" \/ s = "sigma2" \/ s = "sigma3"
      \/ s = "sigma4".
Proof.
  change sigma_names with ["sigma0"; "sigma1"; "sigma2"; "sigma3"; "sigma4"].
  cbn [existsb]. rewrite !Bool.orb_true_iff, !String.eqb_eq.
  intuition discriminate.
Qed.

Lemma on_grids_shape (f : Q -> Q -> Q) (x y : list Q) (b : bool) :
  let sig := on_grids f (fst (dens_grids b x y)) (snd (dens_grids b x y)) in
  length sig = length y /\ Forall (fun row => length row = length x) sig.
Proof.
  cbn zeta. unfold on_grids, dens_grids, meshgrid.
  destruct b; cbn [fst snd].
  - split.
    + rewrite length_zip_with, !length_map. lia.
    + apply Forall_forall. intros row Hrow.
      apply list_elem_of_lookup in Hrow as [i Hi].
      apply lookup_zip_with_Some in Hi as (r1 & r2 & -> & H1 & H2).
      apply list_lookup_fmap_Some in H1 as (? & -> & _).
      apply list_lookup_fmap_Some in H2 as (? & -> & _).
      rewrite length_zip_with, length_map. lia.
  - split.
    + rewrite length_zip_with, !length_map. lia.
    + apply Forall_forall. intros row Hrow.
      apply list_elem_of_lookup in Hrow as [i Hi].
      apply lookup_zip_with_Some in Hi as (r1 & r2 & -> & H1 & H2).
      apply list_lookup_fmap_Some in H1 as (? & -> & _).
      apply list_lookup_fmap_Some in H2 as (? & -> & _).
      rewrite length_zip_with, length_map. lia.
Qed.

Section DensContours.

Variable gsw_sigma : string -> Q -> Q -> Q.

(** A name other than [sigma0] ... [sigma4] raises ValueError before any
    limit is read or anything is drawn. *)
Theorem draw_dens_sigma_name (ax : option handle) (a : dens_args) (w : world) :
  da_sigma a <> "sigma0" -> da_sigma a <> "sigma1" ->
  da_sigma a <> "sigma2" -> da_sigma a <> "sigma3" ->
  da_sigma a <> "sigma4" ->
  draw_dens_contours_teos10 gsw_sigma ax a w = (Raise ValueError, w).
Proof.
  intros H0 H1 H2 H3 H4. unfold draw_dens_contours_teos10.
  assert (Hax : or_gca ax w = (Ok (target ax w), w)) by now destruct ax.
  rewrite (bind_ok _ _ _ _ _ Hax).
  destruct (existsb _ sigma_names) eqn:E; [|reflexivity].
  apply sigma_names_spec in E. intuition congruence.
Qed.

(** The whole of a call whose sigma name is accepted. *)
Lemma draw_dens_valid (ax : option handle) (a : dens_args) (w : world) :
  existsb (String.eqb (da_sigma a)) sigma_names = true ->
  let t := target ax w in
  let sl := dens_slim t (da_salt_on_x a) (da_slim a) w in
  let tl := dens_tlim t (da_salt_on_x a) (da_tlim a) w in
  let x := linspace (fst sl) (snd sl) (da_density_grid a) in
  let y := linspace (fst tl) (snd tl) (da_density_grid a) in
  let sig := on_grids (gsw_sigma (da_sigma a))
               (fst (dens_grids (da_salt_on_x a) x y))
               (snd (dens_grids (da_salt_on_x a) x y)) in
  draw_dens_contours_teos10 gsw_sigma ax a w =
    match dens_levels sig (da_dens_interval a) with
    | Raise e => (Raise e, w)
    | Ok levels =>
        let w2 := record (Clabel t (length (trace w)) (clabel_kw a))
                    (record (Contour t x y sig (contour_kw a levels)) w) in
        if da_add_labels a then
          match contour_kw a levels !! "colors" with
          | None => (Raise KeyError, w2)
          | Some color =>
              (Ok tt, record (sigma_text (gca w) t (da_sigma a) color) w2)
          end
        else (Ok tt, w2)
    end.
Proof.
  intros Hname. cbn zeta. unfold draw_dens_contours_teos10.
  assert (Hax : or_gca ax w = (Ok (target ax w), w)) by now destruct ax.
  rewrite (bind_ok _ _ _ _ _ Hax), Hname. cbn [negb].
  rewrite (bind_ok _ _ _ _ _ (dens_axes_samples_run _ _ _ _ _ _)).
  destruct (dens_grids _ _ _) as [ss tt_]. cbn [fst snd].
  destruct (dens_levels _ _) as [levels|e]; [|reflexivity].
  fold (contour_kw a levels). fold (clabel_kw a).
  match goal with
  | |- context [bind (lift (Ok levels)) ?k w] =>
      change (bind (lift (Ok levels)) k w) with (k levels w)
  end.
  cbv beta. fold (contour_kw a levels). fold (clabel_kw a).
  unfold bind at 1. cbn [emit_artist]. unfold bind at 1. cbn [emit].
  destruct (da_add_labels a); [|reflexivity].
  destruct (contour_kw a levels !! "colors"); reflexivity.
Qed.

Lemma contour_kw_lookup (a : dens_args) (levels : list Q) (k : string) :
  contour_kw a levels !! k =
    match da_contour_kwargs a !! k with
    | Some v => Some v
    | None =>
        match da_kwargs a !! k with
        | Some v => Some v
        | None =>
            ({[ "levels" := Ndarray levels; "colors" := Val (VStr "0.4");
                "linestyles" := Val (VStr "--");
                "linewidths" := Val (VFloat 0.5) ]} : kwargs) !! k
        end
    end.
Proof. unfold contour_kw. now rewrite !dict_update_lookup. Qed.

Lemma contour_kw_colors (a : dens_args) (levels : list Q) :
  contour_kw a levels !! "colors" =
    Some (default (default (Val (VStr "0.4")) (da_kwargs a !! "colors"))
            (da_contour_kwargs a !! "colors")).
Proof.
  rewrite contour_kw_lookup.
  destruct (da_contour_kwargs a !! "colors"); [reflexivity|].
  destruct (da_kwargs a !! "colors"); [reflexivity|].
  rewrite lookup_insert_ne by discriminate. now rewrite lookup_insert_eq.
Qed.

Lemma grid_reduce_ok (f : Q -> Q -> Q) (a : list (list Q)) :
  concat a <> [] -> exists q, grid_reduce f a = Ok q.
Proof.
  intros H. unfold grid_reduce. destruct (concat a); [congruence|eauto].
Qed.

Lemma concat_nonempty (n : nat) (sig : list (list Q)) :
  (0 < n)%nat -> length sig = n -> Forall (fun row => length row = n) sig ->
  concat sig <> [].
Proof.
  intros Hn Hlen Hrows. destruct sig as [|row sig]; [cbn in Hlen; lia|].
  apply Forall_cons in Hrows as [Hrow _].
  destruct row; [cbn in Hrow; lia|]. discriminate.
Qed.

Lemma arange_ok (a b step : Q) :
  ~ (step == 0)%Q -> exists l, arange a b step = Ok l.
Proof.
  intros H. unfold arange. destruct (Qeq_bool step 0) eqn:E; [|eauto].
  now apply Qeq_bool_eq in E.
Qed.

Lemma dens_levels_ok (sig : list (list Q)) (step : Q) :
  concat sig <> [] -> ~ (step == 0)%Q ->
  exists levels, dens_levels sig step = Ok levels.
Proof.
  intros Hne Hstep. unfold dens_levels, grid_min, grid_max.
  destruct (grid_reduce_ok Qmin _ Hne) as [lo ->].
  destruct (grid_reduce_ok Qmax _ Hne) as [hi ->].
  now apply arange_ok.
Qed.

Lemma valid_sigma_names (s : string) :
  valid_sigma s -> existsb (String.eqb s) sigma_names = true.
Proof.
  intros H. apply sigma_names_spec. unfold valid_sigma in H. cbn in H.
  intuition.
Qed.

(** With no sample at all ([density_grid = 0]) there is no minimum to take:
    the call raises ValueError and nothing is drawn. *)
Theorem draw_dens_empty_grid (ax : option handle) (a : dens_args) (w : world) :
  valid_sigma (da_sigma a) -> da_density_grid a = 0%nat ->
  draw_dens_contours_teos10 gsw_sigma ax a w = (Raise ValueError, w).
Proof.
  intros Hname Hn.
  rewrite (draw_dens_valid ax a w (valid_sigma_names _ Hname)). cbn zeta.
  rewrite Hn. now destruct (da_salt_on_x a).
Qed.

(** A call with an accepted name, at least two samples a side and a
    positive interval returns normally.  It records a [contour] over
    [density_grid] x samples, [density_grid] y samples and a square grid of
    sigma values, then a [clabel] of that contour set, then the label text
    if asked for, and nothing else. *)
Theorem draw_dens_calls (ax : option handle) (a : dens_args) (w : world) :
  valid_sigma (da_sigma a) -> (2 <= da_density_grid a)%nat ->
  (0 < da_dens_interval a)%Q ->
  let n := da_density_grid a in
  let t := target ax w in
  exists x y sig kw lkw label w',
    draw_dens_contours_teos10 gsw_sigma ax a w = (Ok tt, w')
    /\ trace w' = (trace w ++ [Contour t x y sig kw;
                               Clabel t (length (trace w)) lkw] ++ label)%list
    /\ length x = n /\ length y = n
    /\ length sig = n /\ Forall (fun row => length row = n) sig
    /\ (if da_add_labels a
        then exists g s tr tkw, label = [Text g 0.05 0.05 s tr tkw]
        else label = []).
Proof.
  intros Hname Hn Hstep n t.
  rewrite (draw_dens_valid ax a w (valid_sigma_names _ Hname)). cbn zeta.
  fold t.
  set (sl := dens_slim t (da_salt_on_x a) (da_slim a) w).
  set (tl := dens_tlim t (da_salt_on_x a) (da_tlim a) w).
  set (x := linspace (fst sl) (snd sl) (da_density_grid a)).
  set (y := linspace (fst tl) (snd tl) (da_density_grid a)).
  assert (Hx : length x = n) by apply linspace_length.
  assert (Hy : length y = n) by apply linspace_length.
  destruct (on_grids_shape (gsw_sigma (da_sigma a)) x y (da_salt_on_x a))
    as [Hrows Hcols].
  rewrite Hy in Hrows. rewrite Hx in Hcols.
  set (sig := on_grids _ _ _) in *.
  destruct (dens_levels_ok sig (da_dens_interval a)) as [levels Hlev];
    [apply (concat_nonempty n); [subst n; lia | assumption | assumption]
    | lra |].
  rewrite Hlev. rewrite contour_kw_colors.
  exists x, y, sig, (contour_kw a levels), (clabel_kw a).
  destruct (da_add_labels a).
  - exists [sigma_text (gca w) t (da_sigma a)
              (default (default (Val (VStr "0.4")) (da_kwargs a !! "colors"))
                 (da_contour_kwargs a !! "colors"))].
    eexists. split; [reflexivity|].
    split; [cbn [record trace]; now rewrite <- !app_assoc|].
    repeat (split; [assumption|]). unfold sigma_text. eauto.
  - exists []. eexists. split; [reflexivity|].
    split; [cbn [record trace]; now rewrite <- !app_assoc|].
    repeat (split; [assumption|]). reflexivity.
Qed.

Lemma text_kw_color (color : pyobj) :
  ({[ "fontsize" := Val (VInt 14);
      "verticalalignment" := Val (VStr "center");
      "horizontalalignment" := Val (VStr "center");
      "color" := color ]} : kwargs) !! "color" = Some color.
Proof.
  rewrite !lookup_insert_ne by discriminate. apply lookup_singleton_eq.
Qed.

(** The label of the contours is written with [plt.text], that is on the
    current axes, also when the contours were drawn on another axes, whose
    transform it is given.  It reads [$\sigma_{k}$], [k] the digit of the
    sigma name, in the colour of the contours: ['colors'] of
    [contour_kwargs], else of the other keyword arguments, else ['0.4']. *)
Theorem draw_dens_label (ax : option handle) (a : dens_args) (w : world) :
  valid_sigma (da_sigma a) -> (0 < da_density_grid a)%nat ->
  ~ (da_dens_interval a == 0)%Q -> da_add_labels a = true ->
  exists s tkw,
    last (trace (snd (draw_dens_contours_teos10 gsw_sigma ax a w)))
    = Some (Text (gca w) 0.05 0.05 s (target ax w) tkw)
    /\ In (da_sigma a, s)
         [("sigma0", "$\sigma_{0}$"); ("sigma1", "$\sigma_{1}$");
          ("sigma2", "$\sigma_{2}$"); ("sigma3", "$\sigma_{3}$");
          ("sigma4", "$\sigma_{4}$")]
    /\ tkw !! "color" =
         Some (default (default (Val (VStr "0.4")) (da_kwargs a !! "colors"))
                 (da_contour_kwargs a !! "colors")).
Proof.
  intros Hname Hn Hstep Hlab.
  rewrite (draw_dens_valid ax a w (valid_sigma_names _ Hname)). cbn zeta.
  set (t := target ax w).
  set (sl := dens_slim t (da_salt_on_x a) (da_slim a) w).
  set (tl := dens_tlim t (da_salt_on_x a) (da_tlim a) w).
  set (x := linspace (fst sl) (snd sl) (da_density_grid a)).
  set (y := linspace (fst tl) (snd tl) (da_density_grid a)).
  destruct (on_grids_shape (gsw_sigma (da_sigma a)) x y (da_salt_on_x a))
    as [Hrows Hcols].
  unfold x, y in Hrows, Hcols. rewrite linspace_length in Hrows, Hcols.
  fold x y in Hrows, Hcols.
  set (sig := on_grids _ _ _) in *.
  destruct (dens_levels_ok sig (da_dens_interval a)) as [levels Hlev];
    [now apply (concat_nonempty (da_density_grid a)) | assumption |].
  rewrite Hlev, Hlab, contour_kw_colors. cbn [snd].
  eexists _, _. split; [|split].
  - unfold sigma_text. cbn [record trace]. apply last_snoc.
  - unfold valid_sigma in Hname. cbn in Hname.
    destruct Hname as [<-|[<-|[<-|[<-|[<-|[]]]]]]; cbn; tauto.
  - apply text_kw_color.
Qed.

(** Keyword arguments: an entry of [contour_kwargs] reaches [contour] and
    one of [c_label_kwargs] reaches [clabel], each overriding the other
    keyword arguments; an entry of the other keyword arguments reaches both
    calls where it is not overridden; the computed levels are passed as
    ['levels'] unless the caller names ['levels'] itself. *)
Theorem draw_dens_kwargs (ax : option handle) (a : dens_args) (w : world) :
  valid_sigma (da_sigma a) -> (0 < da_density_grid a)%nat ->
  ~ (da_dens_interval a == 0)%Q ->
  exists x y sig ch kw lkw levels,
    In (Contour (target ax w) x y sig kw)
       (trace (snd (draw_dens_contours_teos10 gsw_sigma ax a w)))
    /\ In (Clabel (target ax w) ch lkw)
         (trace (snd (draw_dens_contours_teos10 gsw_sigma ax a w)))
    /\ dens_levels sig (da_dens_interval a) = Ok levels
    /\ (forall k v, da_contour_kwargs a !! k = Some v -> kw !! k = Some v)
    /\ (forall k v, da_c_label_kwargs a !! k = Some v -> lkw !! k = Some v)
    /\ (forall k v, da_kwargs a !! k = Some v ->
          (da_contour_kwargs a !! k = None -> kw !! k = Some v)
          /\ (da_c_label_kwargs a !! k = None -> lkw !! k = Some v))
    /\ (da_contour_kwargs a !! "levels" = None ->
        da_kwargs a !! "levels" = None ->
        kw !! "levels" = Some (Ndarray levels))
    /\ (da_c_label_kwargs a !! "fmt" = None -> da_kwargs a !! "fmt" = None ->
        lkw !! "fmt" = Some (Val (VStr "%.02f"))).
Proof.
  intros Hname Hn Hstep.
  rewrite (draw_dens_valid ax a w (valid_sigma_names _ Hname)). cbn zeta.
  set (t := target ax w).
  set (sl := dens_slim t (da_salt_on_x a) (da_slim a) w).
  set (tl := dens_tlim t (da_salt_on_x a) (da_tlim a) w).
  set (x := linspace (fst sl) (snd sl) (da_density_grid a)).
  set (y := linspace (fst tl) (snd tl) (da_density_grid a)).
  destruct (on_grids_shape (gsw_sigma (da_sigma a)) x y (da_salt_on_x a))
    as [Hrows Hcols].
  unfold x, y in Hrows, Hcols. rewrite linspace_length in Hrows, Hcols.
  fold x y in Hrows, Hcols.
  set (sig := on_grids _ _ _) in *.
  destruct (dens_levels_ok sig (da_dens_interval a)) as [levels Hlev];
    [now apply (concat_nonempty (da_density_grid a)) | assumption |].
  rewrite Hlev, contour_kw_colors.
  exists x, y, sig, (length (trace w)), (contour_kw a levels), (clabel_kw a),
    levels.
  split; [|split; [|split; [exact Hlev|]]].
  - destruct (da_add_labels a); cbn [snd record trace];
      rewrite ?in_app_iff; cbn [In]; tauto.
  - destruct (da_add_labels a); cbn [snd record trace];
      rewrite ?in_app_iff; cbn [In]; tauto.
  - split; [|split; [|split; [|split]]].
    + intros k v Hk. rewrite contour_kw_lookup. now rewrite Hk.
    + intros k v Hk. unfold clabel_kw. rewrite dict_update_lookup.
      now rewrite Hk.
    + intros k v Hk. split; intros Hnone.
      * rewrite contour_kw_lookup. now rewrite Hnone, Hk.
      * unfold clabel_kw. rewrite !dict_update_lookup. now rewrite Hnone, Hk.
    + intros H1 H2. rewrite contour_kw_lookup, H1, H2.
      apply lookup_insert_eq.
    + intros H1 H2. unfold clabel_kw. rewrite !dict_update_lookup, H1, H2.
      apply lookup_singleton_eq.
Qed.

Lemma of_nat_pos (n : nat) : (0 < n)%nat -> (0 < of_nat n)%Q.
Proof.
  intros H. unfold of_nat. change 0%Q with (inject_Z 0). rewrite <- Zlt_Qlt. lia.
Qed.

(** Sample [i] of [np.linspace] is [start + i * (stop - start) / (num - 1)]. *)
Lemma linspace_lookup (a b : Q) (n i : nat) :
  (i < n)%nat ->
  exists v, linspace a b n !! i = Some v
            /\ (v == a + of_nat i * ((b - a) / of_nat (n - 1)))%Q.
Proof.
  intros Hi. unfold linspace.
  set (f := fun i => (of_nat i * ((b - a) / of_nat (n - 1)) + a)%Q).
  assert (Hf : map f (seq 0 n) !! i = Some (f i)).
  { apply list_lookup_fmap_Some. exists i. split; [reflexivity|].
    now apply lookup_seq. }
  destruct (1 <? n)%nat eqn:E.
  - apply Nat.ltb_lt in E.
    destruct (decide (i = (n - 1)%nat)) as [->|Hne].
    + exists b. split.
      * apply list_lookup_insert_eq. rewrite length_map, length_seq. lia.
      * assert (Hd : (0 < of_nat (n - 1))%Q) by (apply of_nat_pos; lia).
        field. lra.
    + exists (f i). split.
      * rewrite list_lookup_insert_ne by congruence. exact Hf.
      * unfold f. ring.
  - exists (f i). split; [exact Hf|]. unfold f. ring.
Qed.

(** With salinity on the x-axis the contour is drawn over evenly spaced
    salinities [x] from the salinity limits and temperatures [y] from the
    temperature limits (the ones given, else the x and y limits of the
    axes), and entry [(i, j)] of the grid is the sigma function at
    salinity [x[j]] and temperature [y[i]]. *)
Theorem draw_dens_salt_on_x_grid (ax : option handle) (a : dens_args)
    (w : world) :
  valid_sigma (da_sigma a) -> (0 < da_density_grid a)%nat ->
  ~ (da_dens_interval a == 0)%Q -> da_salt_on_x a = true ->
  let n := da_density_grid a in
  let sl := match da_slim a with
            | Some l => l
            | None => xlim (get_axes (target ax w) w)
            end in
  let tl := match da_tlim a with
            | Some l => l
            | None => ylim (get_axes (target ax w) w)
            end in
  exists x y sig kw,
    In (Contour (target ax w) x y sig kw)
       (trace (snd (draw_dens_contours_teos10 gsw_sigma ax a w)))
    /\ (forall j, (j < n)%nat ->
          exists s, x !! j = Some s
            /\ (s == fst sl + of_nat j * ((snd sl - fst sl) / of_nat (n - 1)))%Q)
    /\ (forall i, (i < n)%nat ->
          exists t, y !! i = Some t
            /\ (t == fst tl + of_nat i * ((snd tl - fst tl) / of_nat (n - 1)))%Q)
    /\ (forall i j s t, x !! j = Some s -> y !! i = Some t ->
          exists row, sig !! i = Some row
                      /\ row !! j = Some (gsw_sigma (da_sigma a) s t)).
Proof.
  intros Hname Hn Hstep Hsx n sl tl.
  rewrite (draw_dens_valid ax a w (valid_sigma_names _ Hname)). cbn zeta.
  unfold dens_slim, dens_tlim. rewrite Hsx. fold sl tl.
  set (t := target ax w).
  set (x := linspace (fst sl) (snd sl) (da_density_grid a)).
  set (y := linspace (fst tl) (snd tl) (da_density_grid a)).
  destruct (on_grids_shape (gsw_sigma (da_sigma a)) x y true)
    as [Hrows Hcols].
  unfold x, y in Hrows, Hcols. rewrite linspace_length in Hrows, Hcols.
  fold x y in Hrows, Hcols.
  assert (Hgrid : forall i j s t0, x !! j = Some s -> y !! i = Some t0 ->
            exists row,
              on_grids (gsw_sigma (da_sigma a)) (fst (dens_grids true x y))
                (snd (dens_grids true x y)) !! i = Some row
              /\ row !! j = Some (gsw_sigma (da_sigma a) s t0)).
  { intros i j s t0 Hs Ht.
    generalize (dens_grids_salt_on_x (gsw_sigma (da_sigma a)) x y i j s t0
                  Hs Ht).
    destruct (dens_grids true x y). auto. }
  set (sig := on_grids _ _ _) in *.
  destruct (dens_levels_ok sig (da_dens_interval a)) as [levels Hlev];
    [now apply (concat_nonempty (da_density_grid a)) | assumption |].
  rewrite Hlev, contour_kw_colors.
  exists x, y, sig, (contour_kw a levels).
  split; [|split; [|split]].
  - destruct (da_add_labels a); cbn [snd record trace];
      rewrite ?in_app_iff; cbn [In]; tauto.
  - intros j Hj. apply linspace_lookup, Hj.
  - intros i Hi. apply linspace_lookup, Hi.
  - exact Hgrid.
Qed.

(** With salinity on the y-axis, [x] still holds the samples of the
    salinity limits (the ones given, else the y limits of the axes) and [y]
    those of the temperature limits (else the x limits); the contour is
    drawn over [x] and [y] in that order, and entry [(i, j)] of the grid is
    the sigma function called with [y[i]] as its salinity and [x[j]] as its
    temperature. *)
Theorem draw_dens_salt_on_y_grid (ax : option handle) (a : dens_args)
    (w : world) :
  valid_sigma (da_sigma a) -> (0 < da_density_grid a)%nat ->
  ~ (da_dens_interval a == 0)%Q -> da_salt_on_x a = false ->
  let n := da_density_grid a in
  let sl := match da_slim a with
            | Some l => l
            | None => ylim (get_axes (target ax w) w)
            end in
  let tl := match da_tlim a with
            | Some l => l
            | None => xlim (get_axes (target ax w) w)
            end in
  exists x y sig kw,
    In (Contour (target ax w) x y sig kw)
       (trace (snd (draw_dens_contours_teos10 gsw_sigma ax a w)))
    /\ (forall j, (j < n)%nat ->
          exists s, x !! j = Some s
            /\ (s == fst sl + of_nat j * ((snd sl - fst sl) / of_nat (n - 1)))%Q)
    /\ (forall i, (i < n)%nat ->
          exists t, y !! i = Some t
            /\ (t == fst tl + of_nat i * ((snd tl - fst tl) / of_nat (n - 1)))%Q)
    /\ (forall i j s t, x !! j = Some s -> y !! i = Some t ->
          exists row, sig !! i = Some row
                      /\ row !! j = Some (gsw_sigma (da_sigma a) t s)).
Proof.
  intros Hname Hn Hstep Hsx n sl tl.
  rewrite (draw_dens_valid ax a w (valid_sigma_names _ Hname)). cbn zeta.
  unfold dens_slim, dens_tlim. rewrite Hsx. fold sl tl.
  set (t := target ax w).
  set (x := linspace (fst sl) (snd sl) (da_density_grid a)).
  set (y := linspace (fst tl) (snd tl) (da_density_grid a)).
  destruct (on_grids_shape (gsw_sigma (da_sigma a)) x y false)
    as [Hrows Hcols].
  unfold x, y in Hrows, Hcols. rewrite linspace_length in Hrows, Hcols.
  fold x y in Hrows, Hcols.
  assert (Hgrid : forall i j s t0, x !! j = Some s -> y !! i = Some t0 ->
            exists row,
              on_grids (gsw_sigma (da_sigma a)) (fst (dens_grids false x y))
                (snd (dens_grids false x y)) !! i = Some row
              /\ row !! j = Some (gsw_sigma (da_sigma a) t0 s)).
  { intros i j s t0 Hs Ht.
    generalize (dens_grids_salt_on_y (gsw_sigma (da_sigma a)) x y i j s t0
                  Hs Ht).
    destruct (dens_grids false x y). auto. }
  set (sig := on_grids _ _ _) in *.
  destruct (dens_levels_ok sig (da_dens_interval a)) as [levels Hlev];
    [now apply (concat_nonempty (da_density_grid a)) | assumption |].
  rewrite Hlev, contour_kw_colors.
  exists x, y, sig, (contour_kw a levels).
  split; [|split; [|split]].
  - destruct (da_add_labels a); cbn [snd record trace];
      rewrite ?in_app_iff; cbn [In]; tauto.
  - intros j Hj. apply linspace_lookup, Hj.
  - intros i Hi. apply linspace_lookup, Hi.
  - exact Hgrid.
Qed.

End DensContours.

(** *** The contour levels *)

Lemma fold_min_le (l : list Q) (q : Q) :
  (fold_left Qmin l q <= q)%Q
  /\ forall v, In v l -> (fold_left Qmin l q <= v)%Q.
Proof.
  revert q. induction l as [|x l IH]; intros q; cbn [fold_left].
  - split; [apply Qle_refl | intros v []].
  - destruct (IH (Qmin q x)) as [H1 H2]. split.
    + eapply Qle_trans; [exact H1 | apply Q.le_min_l].
    + intros v [<-|Hv]; [|now apply H2].
      eapply Qle_trans; [exact H1 | apply Q.le_min_r].
Qed.

Lemma fold_max_ge (l : list Q) (q : Q) :
  (q <= fold_left Qmax l q)%Q
  /\ forall v, In v l -> (v <= fold_left Qmax l q)%Q.
Proof.
  revert q. induction l as [|x l IH]; intros q; cbn [fold_left].
  - split; [apply Qle_refl | intros v []].
  - destruct (IH (Qmax q x)) as [H1 H2]. split.
    + eapply Qle_trans; [apply Q.le_max_l | exact H1].
    + intros v [<-|Hv]; [|now apply H2].
      eapply Qle_trans; [apply Q.le_max_r | exact H1].
Qed.

(** For a [dens_interval] that is a positive whole number (as the default
    1.0 is) and a grid with at least one value, all of magnitude at most
    [2^52] so that whole numbers are computed without rounding, the levels
    are the whole numbers [floor(min) + i * dens_interval] below
    [ceil(max)], and they bracket the data: every value of the grid lies
    between the first level and one interval above the last. *)
Theorem dens_levels_bracket (sig : list (list Q)) (k : Z) :
  concat sig <> [] -> (0 < k)%Z ->
  Forall (fun v => (- inject_Z (2 ^ 52) <= v <= inject_Z (2 ^ 52))%Q)
    (concat sig) ->
  exists levels lo hi,
    dens_levels sig (inject_Z k) = Ok levels
    /\ grid_min sig = Ok lo /\ grid_max sig = Ok hi
    /\ (forall v, In v (concat sig) -> (lo <= v <= hi)%Q)
    /\ (forall i l, levels !! i = Some l ->
          (l == inject_Z (Qfloor lo + Z.of_nat i * k))%Q
          /\ (l < inject_Z (Qceiling hi))%Q)
    /\ (forall v, In v (concat sig) ->
          (inject_Z (Qfloor lo) <= v
           <= inject_Z (Qfloor lo + Z.of_nat (length levels) * k))%Q).
Proof.
  intros Hne Hk _.
  assert (Hstep : (0 < inject_Z k)%Q).
  { change 0%Q with (inject_Z 0). now rewrite <- Zlt_Qlt. }
  assert (Hmm : exists lo hi, grid_min sig = Ok lo /\ grid_max sig = Ok hi
            /\ forall v, In v (concat sig) -> (lo <= v <= hi)%Q).
  { unfold grid_min, grid_max, grid_reduce.
    destruct (concat sig) as [|q l]; [congruence|].
    eexists _, _. split; [reflexivity|]. split; [reflexivity|].
    destruct (fold_min_le l q) as [Hq Hl].
    destruct (fold_max_ge l q) as [Hq' Hl'].
    intros v [<-|Hv]; split; auto. }
  destruct Hmm as (lo & hi & Hlo & Hhi & Hrange).
  destruct (dens_levels_progression sig (inject_Z k) lo hi Hlo Hhi Hstep)
    as (levels & Hlev & Hprog & Hlast).
  assert (Hint : forall n : nat,
            (inject_Z (Qfloor lo) + of_nat n * inject_Z k
             == inject_Z (Qfloor lo + Z.of_nat n * k))%Q).
  { intros n. unfold of_nat. now rewrite inject_Z_plus, inject_Z_mult. }
  exists levels, lo, hi.
  split; [exact Hlev|]. split; [exact Hlo|]. split; [exact Hhi|].
  split; [exact Hrange|]. split.
  - intros i l Hl. destruct (Hprog i l Hl) as [-> Hlt].
    split; [apply Hint | exact Hlt].
  - intros v Hv. destruct (Hrange v Hv) as [H1 H2]. split.
    + eapply Qle_trans; [apply Qfloor_le | exact H1].
    + rewrite <- Hint. eapply Qle_trans; [exact H2|].
      eapply Qle_trans; [apply Qle_ceiling | exact Hlast].
Qed.

(** ** tsdiagram *)

Lemma draw_dens_name_rejected gsw_sigma (ax : option handle) (a : dens_args)
    (w : world) :
  existsb (String.eqb (da_sigma a)) sigma_names = false ->
  draw_dens_contours_teos10 gsw_sigma ax a w = (Raise ValueError, w).
Proof.
  intros H. unfold draw_dens_contours_teos10.
  assert (Hax : or_gca ax w = (Ok (target ax w), w)) by now destruct ax.
  now rewrite (bind_ok _ _ _ _ _ Hax), H.
Qed.

Section TsDiagram.

Variable gsw_sigma : string -> Q -> Q -> Q.
Variable SA_from_SP : list Q -> list Q -> list Q -> list Q -> list Q.
Variable CT_from_pt : list Q -> list Q -> list Q.

(** [tsdiagram] up to and including its [scatter] call. *)
Lemma tsdiagram_run (salt temp : list Q) (color size : pyobj)
    (lon lat pressure : option (list Q)) (convert_teos10 : bool)
    (ts_kwargs : dens_args) (ax fig : option handle)
    (draw_density_contours draw_cbar add_labels : bool) (kw : kwargs)
    (w : world) (s t : list Q) :
  ts_values SA_from_SP CT_from_pt salt temp lon lat pressure convert_teos10
  = Some (s, t) ->
  let a := target ax w in
  let f := match fig with None => gcf w | Some f => f end in
  let w1 := fold_left (fun w c => record c w)
              (axis_labels a add_labels convert_teos10) w in
  tsdiagram gsw_sigma SA_from_SP CT_from_pt salt temp color size lon lat
    pressure convert_teos10 ts_kwargs ax fig draw_density_contours draw_cbar
    add_labels kw w
  = after_scatter gsw_sigma a f (length (trace w1)) color ts_kwargs
      draw_density_contours draw_cbar
      (record (Scatter a s t (dict_update {[ "s" := size; "c" := color ]} kw))
         w1).
Proof.
  intros Hst a f w1. unfold tsdiagram.
  assert (Hax : or_gca ax w = (Ok a, w)) by now destruct ax.
  assert (Hfig : (match fig with None => plt_gcf | Some f => ret f end) w
                 = (Ok f, w)) by now destruct fig.
  rewrite (bind_ok _ _ _ _ _ Hax), (bind_ok _ _ _ _ _ Hfig).
  assert (Hconv : (if convert_teos10 then
                     match lon, lat, pressure with
                     | Some lon, Some lat, Some pressure =>
                         let salt := SA_from_SP salt pressure lon lat in
                         let temp := CT_from_pt salt temp in
                         ret (salt, temp)
                     | _, _, _ => raise ValueError
                     end
                   else ret (salt, temp)) w = (Ok (s, t), w)).
  { unfold ts_values in Hst. destruct convert_teos10.
    - destruct lon, lat, pressure; try discriminate. now injection Hst as <- <-.
    - now injection Hst as <- <-. }
  rewrite (bind_ok _ _ _ _ _ Hconv).
  assert (Hlab : (if add_labels then
                    emit (SetXlabel a (salt_label convert_teos10)) ;;;
                    emit (SetYlabel a (temp_label convert_teos10))
                  else ret tt) w = (Ok tt, w1)).
  { subst w1. unfold axis_labels. now destruct add_labels. }
  rewrite (bind_ok _ _ _ _ _ Hlab). reflexivity.
Qed.

Lemma tsdiagram_no_values (salt temp : list Q) (color size : pyobj)
    (lon lat pressure : option (list Q)) (convert_teos10 : bool)
    (ts_kwargs : dens_args) (ax fig : option handle)
    (draw_density_contours draw_cbar add_labels : bool) (kw : kwargs)
    (w : world) :
  ts_values SA_from_SP CT_from_pt salt temp lon lat pressure convert_teos10
  = None ->
  tsdiagram gsw_sigma SA_from_SP CT_from_pt salt temp color size lon lat
    pressure convert_teos10 ts_kwargs ax fig draw_density_contours draw_cbar
    add_labels kw w = (Raise ValueError, w).
Proof.
  intros Hst. unfold tsdiagram.
  assert (Hax : or_gca ax w = (Ok (target ax w), w)) by now destruct ax.
  set (f := match fig with None => gcf w | Some f => f end).
  assert (Hfig : (match fig with None => plt_gcf | Some f => ret f end) w
                 = (Ok f, w)) by now destruct fig.
  rewrite (bind_ok _ _ _ _ _ Hax), (bind_ok _ _ _ _ _ Hfig).
  apply bind_raise. unfold ts_values in Hst.
  destruct convert_teos10; [|discriminate].
  destruct lon, lat, pressure; try reflexivity. discriminate.
Qed.

Lemma after_scatter_value (a f : handle) (n : nat) (color : pyobj)
    (ts : dens_args) (ddc dcb : bool) (w : world) (m : nat) (w' : world) :
  after_scatter gsw_sigma a f n color ts ddc dcb w = (Ok m, w') -> m = n.
Proof.
  intros H. unfold after_scatter, bind in H. destruct ddc.
  - destruct (draw_dens_contours_teos10 gsw_sigma (Some a) ts w)
      as [[[]|e] w2]; [|discriminate].
    destruct dcb; [destruct color as [[]| | |]|];
      unfold emit, ret, raise in H; cbn in H; congruence.
  - destruct dcb; [destruct color as [[]| | |]|];
      unfold emit, ret, raise in H; cbn in H; congruence.
Qed.

Lemma after_scatter_plain (a f : handle) (n : nat) (color : pyobj)
    (ts : dens_args) (dcb : bool) (w : world) :
  after_scatter gsw_sigma a f n color ts false dcb w =
    if dcb then
      match color with
      | Val VNone | Val (VStr _) | Val (VTuple _) => (Ok n, w)
      | Val (VList _) | Ndarray _ | DataArray _ =>
          (Ok n, record (Colorbar f n a) w)
      | _ => (Raise RuntimeError, w)
      end
    else (Ok n, w).
Proof.
  unfold after_scatter. destruct dcb; [|reflexivity].
  destruct color as [[]| | |]; reflexivity.
Qed.

(** When [tsdiagram] returns, the handle it returns is that of its
    [scatter] call, which stays recorded whatever is drawn after it. *)
Theorem tsdiagram_returns_scatter (salt temp : list Q) (color size : pyobj)
    (lon lat pressure : option (list Q)) (convert_teos10 : bool)
    (ts_kwargs : dens_args) (ax fig : option handle)
    (draw_density_contours draw_cbar add_labels : bool) (kw : kwargs)
    (w w' : world) (n : nat) :
  tsdiagram gsw_sigma SA_from_SP CT_from_pt salt temp color size lon lat
    pressure convert_teos10 ts_kwargs ax fig draw_density_contours draw_cbar
    add_labels kw w = (Ok n, w') ->
  exists s t skw,
    ts_values SA_from_SP CT_from_pt salt temp lon lat pressure convert_teos10
    = Some (s, t)
    /\ trace w' !! n = Some (Scatter (target ax w) s t skw)
    /\ (length (trace w) <= n)%nat.
Proof.
  intros Hrun.
  destruct (ts_values SA_from_SP CT_from_pt salt temp lon lat pressure
              convert_teos10) as [[s t]|] eqn:Hst.
  - rewrite (tsdiagram_run _ _ color size _ _ _ _ ts_kwargs ax fig
               draw_density_contours draw_cbar add_labels kw w s t Hst)
      in Hrun.
    cbn zeta in Hrun.
    set (w1 := fold_left _ _ w) in *.
    destruct (record_all (axis_labels (target ax w) add_labels convert_teos10)
                w) as [_ Ht1]. fold w1 in Ht1.
    pose proof (after_scatter_value _ _ _ _ _ _ _ _ _ _ Hrun) as ->.
    destruct (emits_after_scatter gsw_sigma (target ax w)
                (match fig with None => gcf w | Some f => f end)
                (length (trace w1)) color ts_kwargs draw_density_contours
                draw_cbar (record (Scatter (target ax w) s t
                   (dict_update {[ "s" := size; "c" := color ]} kw)) w1))
      as (rest & Hrest & _).
    rewrite Hrun in Hrest. cbn [snd record trace] in Hrest.
    eexists s, t, _. split; [reflexivity|]. split.
    + rewrite Hrest. rewrite <- app_assoc.
      rewrite lookup_app_r by lia. now rewrite Nat.sub_diag.
    + rewrite Ht1, length_app. lia.
  - rewrite (tsdiagram_no_values _ _ _ _ _ _ _ _ _ _ _ _ _ _ _ _ Hst) in Hrun.
    discriminate.
Qed.

(** Without density contours, a colorbar is added exactly when
    [draw_cbar] is true and [color] is a list, an ndarray or a DataArray: it
    is the last call recorded, on the figure, for the scatter just drawn and
    its axes.  With [draw_cbar] false, or [color] None, a string or a tuple,
    the scatter is the last call.  In both cases the call returns. *)
Theorem tsdiagram_colorbar (salt temp : list Q) (color size : pyobj)
    (lon lat pressure : option (list Q)) (convert_teos10 : bool)
    (ts_kwargs : dens_args) (ax fig : option handle)
    (draw_cbar add_labels : bool) (kw : kwargs) (w : world) (s t : list Q) :
  ts_values SA_from_SP CT_from_pt salt temp lon lat pressure convert_teos10
  = Some (s, t) ->
  let run := tsdiagram gsw_sigma SA_from_SP CT_from_pt salt temp color size
               lon lat pressure convert_teos10 ts_kwargs ax fig false
               draw_cbar add_labels kw w in
  let f := match fig with None => gcf w | Some f => f end in
  (draw_cbar = true -> color_for_colorbar color ->
     exists n skw,
       fst run = Ok n
       /\ trace (snd run) !! n = Some (Scatter (target ax w) s t skw)
       /\ last (trace (snd run)) = Some (Colorbar f n (target ax w)))
  /\ (draw_cbar = false \/ color_without_colorbar color ->
      exists n skw,
        fst run = Ok n
        /\ last (trace (snd run)) = Some (Scatter (target ax w) s t skw)
        /\ length (trace (snd run)) = S n).
Proof.
  intros Hst run f. subst run.
  rewrite (tsdiagram_run _ _ color size _ _ _ _ ts_kwargs ax fig false
             draw_cbar add_labels kw w s t Hst).
  cbn zeta. fold f. set (w1 := fold_left _ _ w).
  rewrite after_scatter_plain. split.
  - intros -> Hc. eexists _, _.
    destruct color as [[]| | |]; try contradiction; cbn [fst snd record trace];
      (split; [reflexivity|]; split; [|apply last_snoc]);
      rewrite <- app_assoc, lookup_app_r by lia;
      now rewrite Nat.sub_diag.
  - intros Hc. eexists _, _.
    assert (Hplain : (if draw_cbar
                      then match color with
                           | Val VNone | Val (VStr _) | Val (VTuple _) =>
                               (Ok (length (trace w1)),
                                record (Scatter (target ax w) s t
                                  (dict_update {[ "s" := size; "c" := color ]}
                                     kw)) w1)
                           | Val (VList _) | Ndarray _ | DataArray _ =>
                               (Ok (length (trace w1)),
                                record (Colorbar f (length (trace w1))
                                          (target ax w))
                                  (record (Scatter (target ax w) s t
                                     (dict_update
                                        {[ "s" := size; "c" := color ]} kw))
                                     w1))
                           | _ => (Raise RuntimeError,
                                   record (Scatter (target ax w) s t
                                     (dict_update
                                        {[ "s" := size; "c" := color ]} kw))
                                     w1)
                           end
                      else (Ok (length (trace w1)),
                            record (Scatter (target ax w) s t
                              (dict_update {[ "s" := size; "c" := color ]} kw))
                              w1))
                     = (Ok (length (trace w1)),
                        record (Scatter (target ax w) s t
                          (dict_update {[ "s" := size; "c" := color ]} kw))
                          w1)).
    { destruct draw_cbar; [|reflexivity].
      destruct Hc as [Hc|Hc]; [discriminate|].
      destruct color as [[]| | |]; try contradiction; reflexivity. }
    rewrite Hplain. cbn [fst snd record trace].
    split; [reflexivity|]. split; [apply last_snoc|].
    rewrite length_app. cbn. lia.
Qed.

(** One point coloured by a number, with [draw_cbar] true: the scatter is
    recorded and then the call raises, a number being none of the classes
    the colorbar step knows; without density contours the exception is
    RuntimeError and the scatter is the last call recorded. *)
Theorem tsdiagram_color_error (salt temp : list Q) (color size : pyobj)
    (lon lat pressure : option (list Q)) (convert_teos10 : bool)
    (ts_kwargs : dens_args) (ax fig : option handle)
    (draw_density_contours add_labels : bool) (kw : kwargs) (w : world)
    (s t : list Q) :
  ts_values SA_from_SP CT_from_pt salt temp lon lat pressure convert_teos10
  = Some (s, t) ->
  length s = 1%nat -> length t = 1%nat ->
  (exists n, color = Val (VInt n)) \/ (exists q, color = Val (VFloat q)) ->
  let run := tsdiagram gsw_sigma SA_from_SP CT_from_pt salt temp color size
               lon lat pressure convert_teos10 ts_kwargs ax fig
               draw_density_contours true add_labels kw w in
  exists e skw,
    fst run = Raise e
    /\ In (Scatter (target ax w) s t skw) (trace (snd run))
    /\ (draw_density_contours = false ->
        e = RuntimeError
        /\ last (trace (snd run)) = Some (Scatter (target ax w) s t skw)).
Proof.
  intros Hst _ _ Hnum run. subst run.
  assert (Hc : color_unrecognised color)
    by (destruct Hnum as [[n ->]|[q ->]]; exact I).
  clear Hnum.
  rewrite (tsdiagram_run _ _ color size _ _ _ _ ts_kwargs ax fig
             draw_density_contours true add_labels kw w s t Hst).
  cbn zeta. set (f := match fig with None => gcf w | Some f => f end).
  set (w1 := fold_left _ _ w).
  set (skw := dict_update {[ "s" := size; "c" := color ]} kw).
  set (w2 := record (Scatter (target ax w) s t skw) w1).
  destruct (emits_after_scatter gsw_sigma (target ax w) f (length (trace w1))
              color ts_kwargs draw_density_contours true w2)
    as (rest & Hrest & _).
  assert (Hin : In (Scatter (target ax w) s t skw)
                  (trace (snd (after_scatter gsw_sigma (target ax w) f
                                 (length (trace w1)) color ts_kwargs
                                 draw_density_contours true w2)))).
  { rewrite Hrest. subst w2. cbn [record trace]. rewrite !in_app_iff.
    cbn [In]. tauto. }
  destruct draw_density_contours.
  - unfold after_scatter, bind in *.
    destruct (draw_dens_contours_teos10 gsw_sigma (Some (target ax w))
                ts_kwargs w2) as [[[]|e] w3].
    + exists RuntimeError, skw.
      destruct color as [[]| | |]; try contradiction;
        (split; [reflexivity|]; split; [exact Hin | discriminate]).
    + exists e, skw. split; [reflexivity|]. split; [exact Hin|discriminate].
  - exists RuntimeError, skw. rewrite after_scatter_plain in *.
    destruct color as [[]| | |]; try contradiction;
      (split; [reflexivity|]; split; [exact Hin|]; intros _;
       split; [reflexivity|]; subst w2; cbn [snd record trace];
       apply last_snoc).
Qed.

(** A sigma name that [draw_dens_contours_teos10] does not accept, passed
    in [ts_kwargs], makes [tsdiagram] raise ValueError after its labels and
    its scatter have been recorded: they stay, and nothing follows them. *)
Theorem tsdiagram_sigma_error (salt temp : list Q) (color size : pyobj)
    (lon lat pressure : option (list Q)) (convert_teos10 : bool)
    (ts_kwargs : dens_args) (ax fig : option handle)
    (draw_cbar add_labels : bool) (kw : kwargs) (w : world) (s t : list Q) :
  ts_values SA_from_SP CT_from_pt salt temp lon lat pressure convert_teos10
  = Some (s, t) ->
  ~ valid_sigma (da_sigma ts_kwargs) ->
  exists skw,
    tsdiagram gsw_sigma SA_from_SP CT_from_pt salt temp color size lon lat
      pressure convert_teos10 ts_kwargs ax fig true draw_cbar add_labels kw w
    = (Raise ValueError,
       record (Scatter (target ax w) s t skw)
         (fold_left (fun w c => record c w)
            (axis_labels (target ax w) add_labels convert_teos10) w)).
Proof.
  intros Hst Hname. eexists.
  rewrite (tsdiagram_run _ _ color size _ _ _ _ ts_kwargs ax fig
             true draw_cbar add_labels kw w s t Hst).
  cbn zeta. unfold after_scatter. apply bind_raise.
  apply draw_dens_name_rejected.
  destruct (existsb _ sigma_names) eqn:E; [|reflexivity].
  apply sigma_names_spec in E. exfalso. apply Hname.
  unfold valid_sigma. cbn [In].
  destruct E as [-> | [-> | [-> | [-> | ->]]]]; tauto.
Qed.

(** The keyword arguments of the [scatter] call: [s] is [size] and [c] is
    [color] unless the extra keyword arguments name them, and every other
    extra keyword argument is passed on. *)
Theorem tsdiagram_scatter_kwargs (salt temp : list Q) (color size : pyobj)
    (lon lat pressure : option (list Q)) (convert_teos10 : bool)
    (ts_kwargs : dens_args) (ax fig : option handle)
    (draw_density_contours draw_cbar add_labels : bool) (kw : kwargs)
    (w : world) (s t : list Q) :
  ts_values SA_from_SP CT_from_pt salt temp lon lat pressure convert_teos10
  = Some (s, t) ->
  exists skw,
    In (Scatter (target ax w) s t skw)
       (trace (snd (tsdiagram gsw_sigma SA_from_SP CT_from_pt salt temp color
                      size lon lat pressure convert_teos10 ts_kwargs ax fig
                      draw_density_contours draw_cbar add_labels kw w)))
    /\ skw !! "s" = Some (default size (kw !! "s"))
    /\ skw !! "c" = Some (default color (kw !! "c"))
    /\ forall k, k <> "s" -> k <> "c" -> skw !! k = kw !! k.
Proof.
  intros Hst.
  exists (dict_update {[ "s" := size; "c" := color ]} kw).
  split; [|split; [|split]].
  - rewrite (tsdiagram_run _ _ color size _ _ _ _ ts_kwargs ax fig
               draw_density_contours draw_cbar add_labels kw w s t Hst).
    cbn zeta.
    match goal with
    | |- In _ (trace (snd (after_scatter _ ?a ?f ?n _ _ _ _ ?w2))) =>
        destruct (emits_after_scatter gsw_sigma a f n color ts_kwargs
                    draw_density_contours draw_cbar w2) as (rest & -> & _)
    end.
    cbn [record trace]. rewrite !in_app_iff. cbn [In]. tauto.
  - rewrite dict_update_lookup. destruct (kw !! "s"); [reflexivity|].
    apply lookup_insert_eq.
  - rewrite dict_update_lookup. destruct (kw !! "c"); [reflexivity|].
    rewrite lookup_insert_ne by discriminate. apply lookup_singleton_eq.
  - intros k Hs Hc. rewrite dict_update_lookup.
    destruct (kw !! k); [reflexivity|].
    rewrite lookup_insert_ne by congruence.
    now rewrite lookup_singleton_ne by congruence.
Qed.

End TsDiagram.

(** ** The further properties at concrete calls *)

Lemma center_lim_idempotent_witness :
  exists w1 w2,
    center_lim 0 "xy" new_figure = (Ok tt, w1)
    /\ center_lim 0 "xy" w1 = (Ok tt, w2)
    /\ get_axes 0 w2 = get_axes 0 w1.
Proof.
  eexists. 
  destruct (center_lim_idempotent 0 "xy" new_figure _ eq_refl)
    as (w2 & Hrun & Hsame).
  exists w2. split; [reflexivity|]. split; [exact Hrun | apply Hsame].
Defined.

Lemma center_lim_encloses_witness :
  exists w1,
    center_lim 0 "x" new_figure = (Ok tt, w1)
    /\ xlim (get_axes 0 w1) = (- (1), 1)%Q
    /\ ylim (get_axes 0 w1) = ylim (get_axes 0 new_figure).
Proof.
  eexists. split; [reflexivity|].
  destruct (center_lim_encloses 0 "x" new_figure _ eq_refl)
    as (mx & my & (_ & Hx2 & Hmx) & _ & Hx & Hy).
  split.
  - destruct Hx as [[H _]|[_ H]]; [discriminate H | reflexivity].
  - destruct Hy as [[_ H]|[H _]]; [exact H | now elim H].
Defined.

Lemma depth_logscale_labels_distinct_witness :
  NoDup [0; 100; 250]%Z
  /\ exists labels,
       In (SetYticklabels 0 labels)
          (trace (snd (depth_logscale 0 400 (Some [0; 100; 250]%Z) new_figure)))
       /\ NoDup labels.
Proof.
  assert (Hnd : NoDup [0; 100; 250]%Z).
  { repeat constructor; cbn; rewrite ?list_elem_of_In; cbn; intuition lia. }
  split; [exact Hnd|].
  destruct (depth_logscale_labels_distinct 0 400 [0; 100; 250]%Z new_figure Hnd)
    as (labels & Hin & _ & Hlab).
  exists labels. split; assumption.
Defined.

Lemma plot_line_shaded_std_shape_error_witness :
  fst (plot_line_shaded_std (fun _ _ _ => Val (VStr "C0")) [0; 1; 2]%Q
         [1; 2; 3]%Q [1; 1]%Q true None ∅ ∅ new_figure)
  = Raise ValueError.
Proof.
  rewrite (plot_line_shaded_std_shape_error (fun _ _ _ => Val (VStr "C0"))
             [0; 1; 2]%Q [1; 2; 3]%Q [1; 1]%Q true None ∅ ∅ new_figure);
    [reflexivity | cbn; lia | cbn; lia | cbn; lia].
Defined.

Lemma plot_line_shaded_std_band_witness :
  exists (lo hi : list Q) (kw : kwargs) (l h : Q),
    trace (snd (plot_line_shaded_std (fun _ _ _ => Val (VStr "C0"))
                  [0; 1]%Q [1; 2]%Q [1; 1]%Q true None ∅ ∅ new_figure))
    = [Plot 0 [0; 1]%Q [1; 2]%Q ∅; FillBetween 0 [0; 1]%Q lo hi kw]
    /\ lo !! 1%nat = Some l /\ hi !! 1%nat = Some h /\ (l <= 2 <= h)%Q.
Proof.
  destruct (plot_line_shaded_std_band (fun _ _ _ => Val (VStr "C0"))
              [0; 1]%Q [1; 2]%Q [1; 1]%Q true None ∅ ∅ new_figure
              eq_refl eq_refl)
    as (lo & hi & kw & Htrace & _ & _ & Hband).
  { repeat constructor; discriminate. }
  destruct (Hband 1%nat 2%Q eq_refl) as (l & h & Hl & Hh & Hin).
  exists lo, hi, kw, l, h. split; [exact Htrace|].
  split; [exact Hl|]. split; [exact Hh | exact Hin].
Defined.

Lemma plot_line_shaded_std_fill_kwargs_witness :
  exists kw,
    last (trace (snd (plot_line_shaded_std (fun _ _ _ => Val (VStr "C0"))
                        [0; 1]%Q [1; 2]%Q [1; 1]%Q true None ∅
                        {[ "alpha" := Val (VFloat 1) ]} new_figure)))
    = Some (FillBetween 0 [0; 1]%Q [0; 1]%Q [2; 3]%Q kw)
    /\ kw !! "color" = Some (Val (VStr "C0")).
Proof.
  destruct (plot_line_shaded_std_fill_kwargs (fun _ _ _ => Val (VStr "C0"))
              [0; 1]%Q [1; 2]%Q [1; 1]%Q true None ∅
              {[ "alpha" := Val (VFloat 1) ]} new_figure
              [0; 1]%Q [2; 3]%Q eq_refl eq_refl)
    as (kw & Hlast & Hcolor & _).
  exists kw. split; [exact Hlast|].
  rewrite Hcolor. rewrite lookup_singleton_ne by discriminate. reflexivity.
Defined.

Lemma box_plot_within_view_witness :
  exists lines,
    trace (snd (box_plot [(9 # 10); (1 # 10); (2 # 10); (5 # 10)]%Q None
                  (VStr "True") ∅ new_figure)) = lines
    /\ Forall (line_in_view 0 ∅ (0, 1)%Q (0, 1)%Q) lines.
Proof.
  destruct (box_plot_within_view (9 # 10) (1 # 10) (2 # 10) (5 # 10) None
              (VStr "True") ∅ new_figure)
    as (lines & Htrace & Hview);
    try (split; discriminate).
  exists lines. split; [exact Htrace | exact Hview].
Defined.

Lemma dict2box_spec_witness :
  dict2box {[ "lon" := mkSlice 170 (-170); "lat" := mkSlice 10 20 ]}
    "lon" "depth" = Raise KeyError.
Proof.
  apply (proj1 (proj2 (dict2box_spec
                         {[ "lon" := mkSlice 170 (-170);
                            "lat" := mkSlice 10 20 ]} "lon" "depth"))).
  right. rewrite lookup_insert_ne by discriminate.
  apply lookup_singleton_ne. discriminate.
Defined.

Lemma dict2box_insert_witness :
  dict2box (<["lon" := mkSlice 170 (-170)]> (<["lat" := mkSlice 10 20]> ∅))
    "lon" "lat" = Ok [170; -170; 10; 20]%Q.
Proof. apply dict2box_insert. discriminate. Defined.

Lemma box_plot_dict_spec_witness :
  box_plot_dict (<["lon" := mkSlice 170 (-170)]> (<["lat" := mkSlice 10 20]> ∅))
    "lon" "lat" None None ∅ new_figure
  = box_plot [170; -170; 10; 20]%Q None (VStr "True") ∅ new_figure.
Proof.
  apply (proj1 (box_plot_dict_spec
                  (<["lon" := mkSlice 170 (-170)]>
                     (<["lat" := mkSlice 10 20]> ∅))
                  "lon" "lat" None None ∅ new_figure)
           (mkSlice 170 (-170)) (mkSlice 10 20)).
  - apply lookup_insert_eq.
  - rewrite lookup_insert_ne by discriminate. apply lookup_insert_eq.
Defined.

Lemma draw_dens_sigma_name_witness :
  draw_dens_contours_teos10 (fun _ s t => (s + t)%Q) None
    (mkDensArgs "sigma5" true 20 1 true None None ∅ ∅ ∅) new_figure
  = (Raise ValueError, new_figure).
Proof.
  apply (draw_dens_sigma_name (fun _ s t => (s + t)%Q)); discriminate.
Defined.

Lemma draw_dens_empty_grid_witness :
  draw_dens_contours_teos10 (fun _ s t => (s + t)%Q) None
    (mkDensArgs "sigma0" true 0 1 true None None ∅ ∅ ∅) new_figure
  = (Raise ValueError, new_figure).
Proof.
  apply (draw_dens_empty_grid (fun _ s t => (s + t)%Q));
    [left; reflexivity | reflexivity].
Defined.

Lemma small_grid_ok :
  valid_sigma (da_sigma small_grid) /\ (0 < da_density_grid small_grid)%nat
  /\ ~ (da_dens_interval small_grid == 0)%Q.
Proof.
  split; [left; reflexivity|]. split; [cbn; lia | discriminate].
Defined.

Lemma draw_dens_calls_witness :
  exists x y sig kw lkw label w',
    draw_dens_contours_teos10 (fun _ s t => (s + t)%Q) None small_grid
      new_figure = (Ok tt, w')
    /\ trace w' = ([Contour 0 x y sig kw; Clabel 0 0 lkw] ++ label)%list
    /\ length sig = 2%nat.
Proof.
  destruct (draw_dens_calls (fun _ s t => (s + t)%Q) None small_grid
              new_figure)
    as (x & y & sig & kw & lkw & label & w' & Hrun & Htrace & _ & _ & Hsig
        & _);
    [left; reflexivity | cbn; lia | reflexivity |].
  exists x, y, sig, kw, lkw, label, w'.
  split; [exact Hrun|]. split; [exact Htrace | exact Hsig].
Defined.

Lemma draw_dens_label_witness :
  exists s tkw,
    last (trace (snd (draw_dens_contours_teos10 (fun _ s t => (s + t)%Q)
                        (Some 1%nat) small_grid new_figure)))
    = Some (Text 0 0.05 0.05 s 1 tkw)
    /\ tkw !! "color" = Some (Val (VStr "0.4")).
Proof.
  destruct small_grid_ok as (H1 & H2 & H3).
  destruct (draw_dens_label (fun _ s t => (s + t)%Q) (Some 1%nat) small_grid
              new_figure H1 H2 H3 eq_refl)
    as (s & tkw & Hlast & _ & Hcolor).
  exists s, tkw. split; [exact Hlast | exact Hcolor].
Defined.

Lemma draw_dens_kwargs_witness :
  exists x y sig kw levels,
    In (Contour 0 x y sig kw)
       (trace (snd (draw_dens_contours_teos10 (fun _ s t => (s + t)%Q) None
                      small_grid new_figure)))
    /\ kw !! "levels" = Some (Ndarray levels).
Proof.
  destruct small_grid_ok as (H1 & H2 & H3).
  destruct (draw_dens_kwargs (fun _ s t => (s + t)%Q) None small_grid
              new_figure H1 H2 H3)
    as (x & y & sig & ch & kw & lkw & levels & Hin & _ & _ & _ & _ & _
        & Hlev & _).
  exists x, y, sig, kw, levels. split; [exact Hin|].
  apply Hlev; apply lookup_empty.
Defined.

Lemma draw_dens_salt_on_x_grid_witness :
  exists x y sig kw,
    In (Contour 0 x y sig kw)
       (trace (snd (draw_dens_contours_teos10 (fun _ s t => (s + t)%Q) None
                      small_grid new_figure)))
    /\ exists s, x !! 1%nat = Some s /\ (s == 1)%Q.
Proof.
  destruct small_grid_ok as (H1 & H2 & H3).
  destruct (draw_dens_salt_on_x_grid (fun _ s t => (s + t)%Q) None small_grid
              new_figure H1 H2 H3 eq_refl)
    as (x & y & sig & kw & Hin & Hx & _).
  exists x, y, sig, kw. split; [exact Hin|].
  destruct (Hx 1%nat) as (s & Hs & Heq); [cbn; lia|].
  exists s. split; [exact Hs|]. rewrite Heq. reflexivity.
Defined.

Lemma dens_levels_bracket_witness :
  exists levels,
    dens_levels [[(223 # 10); (251 # 10)]; [(279 # 10); 24]]%Q (inject_Z 1)
    = Ok levels
    /\ length levels = 6%nat.
Proof.
  destruct (dens_levels_bracket [[(223 # 10); (251 # 10)]; [(279 # 10); 24]]%Q
              1) as (levels & lo & hi & Hlev & _);
    [discriminate | reflexivity | |].
  { repeat constructor; discriminate. }
  exists levels. split; [exact Hlev|].
  assert (H : Ok levels =
              dens_levels [[(223 # 10); (251 # 10)]; [(279 # 10); 24]]%Q
                (inject_Z 1))
    by (symmetry; exact Hlev).
  vm_compute in H. injection H as ->. reflexivity.
Defined.

Lemma tsdiagram_returns_scatter_witness :
  exists n w' skw,
    tsdiagram (fun _ s t => (s + t)%Q) (fun sp _ _ _ => sp) (fun _ pt => pt)
      [35]%Q [10]%Q (Val VNone) (Val VNone) None None None false
      dens_defaults None None false true true ∅ new_figure = (Ok n, w')
    /\ trace w' !! n = Some (Scatter 0 [35]%Q [10]%Q skw).
Proof.
  pose proof (tsdiagram_run (fun _ s t => (s + t)%Q) (fun sp _ _ _ => sp)
                (fun _ pt => pt) [35]%Q [10]%Q (Val VNone) (Val VNone)
                None None None false dens_defaults None None false true true
                ∅ new_figure [35]%Q [10]%Q eq_refl) as Hrun.
  cbn zeta in Hrun. rewrite after_scatter_plain in Hrun.
  destruct (tsdiagram_returns_scatter (fun _ s t => (s + t)%Q)
              (fun sp _ _ _ => sp) (fun _ pt => pt)
              [35]%Q [10]%Q (Val VNone) (Val VNone) None None None false
              dens_defaults None None false true true ∅ new_figure _ _ Hrun)
    as (s & t & skw & Hst & Hn & _).
  injection Hst as <- <-.
  eexists _, _, skw. split; [exact Hrun | exact Hn].
Defined.

Lemma tsdiagram_colorbar_witness :
  exists n,
    last (trace (snd (tsdiagram (fun _ s t => (s + t)%Q) (fun sp _ _ _ => sp)
                        (fun _ pt => pt) [35]%Q [10]%Q (Ndarray [1]%Q)
                        (Val VNone) None None None false dens_defaults
                        None None false true true ∅ new_figure)))
    = Some (Colorbar 0 n 0).
Proof.
  destruct (tsdiagram_colorbar (fun _ s t => (s + t)%Q) (fun sp _ _ _ => sp)
              (fun _ pt => pt) [35]%Q [10]%Q (Ndarray [1]%Q) (Val VNone)
              None None None false dens_defaults None None true true ∅
              new_figure [35]%Q [10]%Q eq_refl) as [Hbar _].
  destruct (Hbar eq_refl I) as (n & skw & _ & _ & Hlast).
  exists n. exact Hlast.
Defined.

Lemma tsdiagram_color_error_witness :
  exists skw,
    fst (tsdiagram (fun _ s t => (s + t)%Q) (fun sp _ _ _ => sp)
           (fun _ pt => pt) [35]%Q [10]%Q (Val (VFloat 1)) (Val VNone)
           None None None false dens_defaults None None false true true ∅
           new_figure) = Raise RuntimeError
    /\ In (Scatter 0 [35]%Q [10]%Q skw)
         (trace (snd (tsdiagram (fun _ s t => (s + t)%Q) (fun sp _ _ _ => sp)
                        (fun _ pt => pt) [35]%Q [10]%Q (Val (VFloat 1))
                        (Val VNone) None None None false dens_defaults
                        None None false true true ∅ new_figure))).
Proof.
  destruct (tsdiagram_color_error (fun _ s t => (s + t)%Q)
              (fun sp _ _ _ => sp) (fun _ pt => pt) [35]%Q [10]%Q
              (Val (VFloat 1)) (Val VNone) None None None false dens_defaults
              None None false true ∅ new_figure [35]%Q [10]%Q eq_refl
              eq_refl eq_refl (or_intror (ex_intro _ 1%Q eq_refl)))
    as (e & skw & He & Hin & Hplain).
  destruct (Hplain eq_refl) as [-> _].
  exists skw. split; [exact He | exact Hin].
Defined.

Lemma tsdiagram_sigma_error_witness :
  exists w',
    tsdiagram (fun _ s t => (s + t)%Q) (fun sp _ _ _ => sp) (fun _ pt => pt)
      [35]%Q [10]%Q (Val VNone) (Val VNone) None None None false
      (mkDensArgs "sigma9" true 20 1 true None None ∅ ∅ ∅)
      None None true true false ∅ new_figure = (Raise ValueError, w')
    /\ length (trace w') = 1%nat.
Proof.
  destruct (tsdiagram_sigma_error (fun _ s t => (s + t)%Q)
              (fun sp _ _ _ => sp) (fun _ pt => pt) [35]%Q [10]%Q
              (Val VNone) (Val VNone) None None None false
              (mkDensArgs "sigma9" true 20 1 true None None ∅ ∅ ∅)
              None None true false ∅ new_figure [35]%Q [10]%Q eq_refl)
    as (skw & Hrun).
  - unfold valid_sigma. cbn [In da_sigma].
    intros [H|[H|[H|[H|[H|[]]]]]]; discriminate H.
  - eexists. split; [exact Hrun | reflexivity].
Defined.

Lemma tsdiagram_scatter_kwargs_witness :
  exists skw,
    In (Scatter 0 [35]%Q [10]%Q skw)
       (trace (snd (tsdiagram (fun _ s t => (s + t)%Q) (fun sp _ _ _ => sp)
                      (fun _ pt => pt) [35]%Q [10]%Q (Val (VStr "k"))
                      (Val (VInt 4)) None None None false dens_defaults
                      None None false false false
                      {[ "s" := Val (VInt 9) ]} new_figure)))
    /\ skw !! "s" = Some (Val (VInt 9))
    /\ skw !! "c" = Some (Val (VStr "k")).
Proof.
  destruct (tsdiagram_scatter_kwargs (fun _ s t => (s + t)%Q)
              (fun sp _ _ _ => sp) (fun _ pt => pt) [35]%Q [10]%Q
              (Val (VStr "k")) (Val (VInt 4)) None None None false
              dens_defaults None None false false false
              {[ "s" := Val (VInt 9) ]} new_figure [35]%Q [10]%Q eq_refl)
    as (skw & Hin & Hs & Hc & _).
  exists skw. split; [exact Hin|]. split.
  - rewrite Hs. now rewrite lookup_singleton_eq.
  - rewrite Hc. now rewrite lookup_singleton_ne by discriminate.
Defined.

Lemma draw_dens_salt_on_y_grid_witness :
  exists x y sig kw,
    In (Contour 0 x y sig kw)
       (trace (snd (draw_dens_contours_teos10 (fun _ s t => (s + t)%Q) None
                      (mkDensArgs "sigma0" false 2 1 false
                         (Some (30, 40)%Q) (Some (0, 20)%Q) ∅ ∅ ∅)
                      new_figure)))
    /\ exists s, x !! 1%nat = Some s /\ (s == 40)%Q.
Proof.
  destruct (draw_dens_salt_on_y_grid (fun _ s t => (s + t)%Q) None
              (mkDensArgs "sigma0" false 2 1 false
                 (Some (30, 40)%Q) (Some (0, 20)%Q) ∅ ∅ ∅) new_figure)
    as (x & y & sig & kw & Hin & Hx & _);
    [left; reflexivity | cbn; lia | discriminate | reflexivity |].
  exists x, y, sig, kw. split; [exact Hin|].
  destruct (Hx 1%nat) as (s & Hs & Heq); [cbn; lia|].
  exists s. split; [exact Hs|]. rewrite Heq. reflexivity.
Defined.
